(** * OpenHarmony SDK bootstrapper ([cerbero/bootstrap/ohos.py])

    A shallow embedding of the archive discovery, extraction and component
    relocation pipeline, and the properties of its natural-language
    specification that hold (or fail) on it.

    Conventions of the model.
    - Python [str] values are [string]s; [str.lower] acts on the ASCII
      letters, which is all the suffix tests of the program can observe.
    - A path is the list of its components below the file-system root;
      [path_str] renders it with [/] separators.  The components [.] and
      [..] and symbolic links are not interpreted.
    - The file system is a tree whose directories keep their entries in
      listing order (the order [os.scandir] yields them).
    - Code that touches the file system runs in a state-and-exception monad
      over that tree; an exception leaves the tree as it was when raised.
    - The definitions named after the functions of the source run where
      nothing is refused for a reason the tree does not show: every line
      is printed, every file can be read and written, every entry can be
      removed.  Their counterparts with the suffix [_in] run in an
      [Environment] that can refuse each of these; they carry the [print]
      calls of the loop, the reads of the metadata, the write of the
      marker and the final removal of the staging directory.
    - The model takes every name literally.  The operating system and
      [glob] do so for the names called plain below; the properties that
      depend on it assume plain names. *)

From Stdlib Require Import List String Ascii Bool Arith ZArith Lia FinFun.
Import ListNotations.
Open Scope string_scope.
Open Scope list_scope.

Set Implicit Arguments.
Set Warnings "-register-all".

(* ================================================================== *)
(** * Python strings *)
(* ================================================================== *)

Module PyStr.

(** [s.split(sep)] for a one-character separator: never empty. *)
Fixpoint split (sep : ascii) (s : string) : list string :=
  match s with
  | EmptyString => [EmptyString]
  | String c s' =>
      if Ascii.eqb c sep then EmptyString :: split sep s'
      else match split sep s' with
           | [] => [String c EmptyString]
           | w :: ws => String c w :: ws
           end
  end.

(** [l[0]] on the result of a split. *)
Definition first (l : list string) : string := hd EmptyString l.

(** [s.endswith(suf)]. *)
Fixpoint endswith (s suf : string) : bool :=
  if String.eqb s suf then true
  else match s with
       | EmptyString => false
       | String _ s' => endswith s' suf
       end.

(** [s.startswith(c)] for a one-character prefix. *)
Definition startswith (c : ascii) (s : string) : bool :=
  match s with
  | String c' _ => Ascii.eqb c' c
  | EmptyString => false
  end.

Definition lower_ascii (c : ascii) : ascii :=
  let n := nat_of_ascii c in
  if andb (Nat.leb 65 n) (Nat.leb n 90) then ascii_of_nat (n + 32) else c.

(** [s.lower()]. *)
Fixpoint lower (s : string) : string :=
  match s with
  | EmptyString => EmptyString
  | String c s' => String (lower_ascii c) (lower s')
  end.

(** The longest prefix of [s] none of whose characters satisfies [stop]:
    "the substring before the first occurrence of ..." in the words of the
    specification. *)
Fixpoint before_first (stop : ascii -> bool) (s : string) : string :=
  match s with
  | EmptyString => EmptyString
  | String c s' => if stop c then EmptyString else String c (before_first stop s')
  end.

Fixpoint occurs (c : ascii) (s : string) : bool :=
  match s with
  | EmptyString => false
  | String c' s' => Ascii.eqb c' c || occurs c s'
  end.

End PyStr.

(* ================================================================== *)
(** * Module constants and the pure helpers *)
(* ================================================================== *)

Definition SDK_VERSION : string := "6.0".

Definition WANTED_COMPONENTS : list string :=
  ["native"; "toolchains"; "ets"; "js"; "previewer"].

(** [comp in WANTED_COMPONENTS]. *)
Definition wanted (comp : string) : bool :=
  existsb (String.eqb comp) WANTED_COMPONENTS.

Definition _filename_for_platform (platform : string) : string :=
  if String.eqb platform "darwin" then "ohos-sdk-mac-public.tar.gz"
  else "ohos-sdk-windows_linux-public.tar.gz".

(** [{"linux": "linux", "windows": "windows", "darwin": "mac"}.get(platform, platform)]. *)
Definition _platform_dir_name (platform : string) : string :=
  if String.eqb platform "linux" then "linux"
  else if String.eqb platform "windows" then "windows"
  else if String.eqb platform "darwin" then "mac"
  else platform.

(** [os.path.basename]: what follows the last [/]. *)
Definition basename (p : string) : string :=
  last (PyStr.split "/" p) EmptyString.

(** The classifier nested in [start]. *)
Definition _comp_of (path : string) : string :=
  let base := basename path in
  let token := PyStr.first (PyStr.split "." base) in
  let token := PyStr.first (PyStr.split "_" (PyStr.first (PyStr.split "-" token))) in
  token.

(** The classifier as the specification words it: the part of the name
    before the first [.], cut before the first [-] or [_]. *)
Definition is_dot (c : ascii) : bool := Ascii.eqb c ".".
Definition is_dash_or_underscore (c : ascii) : bool :=
  Ascii.eqb c "-" || Ascii.eqb c "_".

Definition classify_spec (name : string) : string :=
  PyStr.before_first is_dash_or_underscore (PyStr.before_first is_dot name).

(* ================================================================== *)
(** * Paths *)
(* ================================================================== *)

Definition path := list string.

Definition sep : string := "/".

(** The path as the string the program sees. *)
Definition path_str (p : path) : string :=
  fold_right (fun name acc => (sep ++ name ++ acc)%string) EmptyString p.

Fixpoint path_eqb (p q : path) : bool :=
  match p, q with
  | [], [] => true
  | x :: p', y :: q' => String.eqb x y && path_eqb p' q'
  | _, _ => false
  end.

(** [p] is [q] or one of its ancestors. *)
Fixpoint is_prefix (p q : path) : bool :=
  match p, q with
  | [], _ => true
  | x :: p', y :: q' => String.eqb x y && is_prefix p' q'
  | _ :: _, [] => false
  end.

(** The components a string contributes to a path: empty components and
    [.] denote the directory reached so far. *)
Definition plain_component (c : string) : bool :=
  negb (String.eqb c EmptyString || String.eqb c ".").

Definition components (s : string) : path :=
  filter plain_component (PyStr.split "/" s).

(** [os.path.join(p, s)]: an absolute [s] discards [p].  The list is the
    path the operating system resolves when [s] holds no component [.] or
    [..] ([plain_key] below). *)
Definition os_path_join (p : path) (s : string) : path :=
  if PyStr.startswith "/" s then components s else p ++ components s.

(* ================================================================== *)
(** * The file system *)
(* ================================================================== *)

Inductive node : Type :=
| File (data : string)
| Dir (entries : list (string * node)).

Module FS.

Fixpoint child (name : string) (es : list (string * node)) : option node :=
  match es with
  | [] => None
  | (x, c) :: es' => if String.eqb x name then Some c else child name es'
  end.

(** Replace the entry [name] where it stands, or append it to the listing. *)
Fixpoint set_child (name : string) (c : node) (es : list (string * node))
  : list (string * node) :=
  match es with
  | [] => [(name, c)]
  | (x, d) :: es' =>
      if String.eqb x name then (x, c) :: es' else (x, d) :: set_child name c es'
  end.

Definition del_child (name : string) (es : list (string * node))
  : list (string * node) :=
  filter (fun e => negb (String.eqb (fst e) name)) es.

Fixpoint lookup (p : path) (n : node) : option node :=
  match p with
  | [] => Some n
  | x :: p' =>
      match n with
      | File _ => None
      | Dir es => match child x es with
                  | Some c => lookup p' c
                  | None => None
                  end
      end
  end.

(** Put [c] at [p]; nothing happens when the parent of [p] is missing. *)
Fixpoint place (p : path) (c : node) (n : node) : node :=
  match p with
  | [] => c
  | x :: p' =>
      match n with
      | File _ => n
      | Dir es =>
          match child x es with
          | Some d => Dir (set_child x (place p' c d) es)
          | None => match p' with
                    | [] => Dir (set_child x c es)
                    | _ :: _ => n
                    end
          end
      end
  end.

(** Drop the entry at [p] with everything below it. *)
Fixpoint remove (p : path) (n : node) : node :=
  match p with
  | [] => n
  | x :: p' =>
      match n with
      | File _ => n
      | Dir es =>
          match p' with
          | [] => Dir (del_child x es)
          | _ :: _ => match child x es with
                      | Some d => Dir (set_child x (remove p' d) es)
                      | None => n
                      end
          end
      end
  end.

(** [os.path.exists], [os.path.isdir], [os.path.isfile]. *)
Definition exists_ (p : path) (fs : node) : bool :=
  match lookup p fs with Some _ => true | None => false end.

Definition isdir (p : path) (fs : node) : bool :=
  match lookup p fs with Some (Dir _) => true | _ => false end.

Definition isfile (p : path) (fs : node) : bool :=
  match lookup p fs with Some (File _) => true | _ => false end.



End FS.

(* ================================================================== *)
(** * Effects: the file system as state, exceptions as results *)
(* ================================================================== *)

Inductive exn : Type :=
| FileExistsError          (* the one [OSError] subclass the libraries test for *)
| OtherOSError             (* any other [OSError] *)
| ShutilError              (* [shutil.Error] *)
| ArchiveError             (* raised while opening or unpacking a container *)
| PrintError.              (* raised by [print] when [sys.stdout] refuses the line *)

Inductive outcome (A : Type) : Type :=
| Ok (a : A) (fs : node)
| Raise (e : exn) (fs : node).

Arguments Raise {A} e fs.

Definition M (A : Type) : Type := node -> outcome A.

Definition ret {A} (a : A) : M A := fun fs => Ok a fs.

Definition bind {A B} (c : M A) (k : A -> M B) : M B :=
  fun fs => match c fs with
            | Ok a fs' => k a fs'
            | Raise e fs' => Raise e fs'
            end.

Notation "x <- c ;; k" := (bind c (fun x => k))
  (at level 61, c at next level, right associativity).
Notation "c ;; k" := (bind c (fun _ => k))
  (at level 61, right associativity).

(** Read the state. *)
Definition gets {A} (f : node -> A) : M A := fun fs => Ok (f fs) fs.

(** [try: c  except Exception: pass]. *)
Definition try_pass (c : M unit) : M unit :=
  fun fs => match c fs with
            | Ok _ fs' => Ok tt fs'
            | Raise _ fs' => Ok tt fs'
            end.

Definition raised {A} (r : outcome A) : bool :=
  match r with Ok _ _ => false | Raise _ _ => true end.

Definition final_fs {A} (r : outcome A) : node :=
  match r with Ok _ fs => fs | Raise _ fs => fs end.

Fixpoint for_each {A} (body : A -> M unit) (l : list A) : M unit :=
  match l with
  | [] => ret tt
  | a :: l' => body a ;; for_each body l'
  end.

(* ================================================================== *)
(** * The library calls the program makes: [os], [shutil], [glob] *)
(* ================================================================== *)

Module Py.

Import FS.

(** [os.mkdir(p)]. *)
Definition os_mkdir (p : path) : M unit := fun fs =>
  match lookup p fs with
  | Some _ => Raise FileExistsError fs
  | None =>
      match lookup (removelast p) fs with
      | Some (Dir _) => Ok tt (place p (Dir []) fs)
      | _ => Raise OtherOSError fs
      end
  end.

(** [os.makedirs(name, exist_ok=exist_ok)], on the reversed name:
<<
    head, tail = path.split(name)
    if head and tail and not path.exists(head):
        try: makedirs(head, exist_ok=exist_ok)
        except FileExistsError: pass
    try: mkdir(name, mode)
    except OSError:
        if not exist_ok or not path.isdir(name): raise
>> *)
Definition mkdir_or_exists (exist_ok : bool) (name : path) : M unit := fun fs =>
  match os_mkdir name fs with
  | Ok _ fs' => Ok tt fs'
  | Raise e fs' => if exist_ok && isdir name fs' then Ok tt fs' else Raise e fs'
  end.

Fixpoint makedirs_rev (exist_ok : bool) (rname : list string) : M unit := fun fs =>
  match rname with
  | [] => mkdir_or_exists exist_ok [] fs
  | _ :: rhead =>
      if exists_ (rev rhead) fs then mkdir_or_exists exist_ok (rev rname) fs
      else match makedirs_rev exist_ok rhead fs with
           | Ok _ fs' => mkdir_or_exists exist_ok (rev rname) fs'
           | Raise FileExistsError fs' => mkdir_or_exists exist_ok (rev rname) fs'
           | Raise e fs' => Raise e fs'
           end
  end.

Definition os_makedirs (exist_ok : bool) (name : path) : M unit :=
  makedirs_rev exist_ok (rev name).

(** [shutil.rmtree(p)]: [p] must be a directory; the root of the file
    system can be emptied but not removed. *)
Definition shutil_rmtree (p : path) : M unit := fun fs =>
  match lookup p fs with
  | Some (Dir _) =>
      match p with
      | [] => Raise OtherOSError (Dir [])
      | _ :: _ => Ok tt (remove p fs)
      end
  | _ => Raise OtherOSError fs
  end.

(** [shutil.rmtree(p, ignore_errors=True)] where no removal is refused;
    [rmtree_quiet] below is the call where some are. *)
Definition shutil_rmtree_ignore_errors (p : path) : M unit :=
  try_pass (shutil_rmtree p).

(** [os.rename(src, dst)] (POSIX [rename]). *)
Definition os_rename (src dst : path) : M unit := fun fs =>
  match lookup src fs with
  | None => Raise OtherOSError fs
  | Some t =>
      if path_eqb src dst then Ok tt fs
      else if is_prefix src dst then Raise OtherOSError fs
      else
        match lookup (removelast dst) fs with
        | Some (Dir _) =>
            match lookup dst fs, t with
            | None, _ => Ok tt (place dst t (remove src fs))
            | Some (File _), File _ => Ok tt (place dst t (remove src fs))
            | Some (Dir []), Dir _ => Ok tt (place dst t (remove src fs))
            | Some _, _ => Raise OtherOSError fs
            end
        | _ => Raise OtherOSError fs
        end
  end.

(** [open(p, "w")] followed by a write of [data], where the file can be
    opened and written whenever the tree allows it; [write_file_in] below
    is the write that the environment can refuse. *)
Definition write_file (p : path) (data : string) : M unit := fun fs =>
  match lookup p fs with
  | Some (Dir _) => Raise OtherOSError fs
  | Some (File _) => Ok tt (place p (File data) fs)
  | None =>
      match lookup (removelast p) fs with
      | Some (Dir _) => Ok tt (place p (File data) fs)
      | _ => Raise OtherOSError fs
      end
  end.

(** [os.unlink(p)]. *)
Definition os_unlink (p : path) : M unit := fun fs =>
  match lookup p fs with
  | Some (File _) => Ok tt (remove p fs)
  | _ => Raise OtherOSError fs
  end.

(** [shutil.copytree(src, dst)]: [os.makedirs(dst)], then the entries. *)
Definition shutil_copytree (src dst : path) : M unit := fun fs =>
  match lookup src fs with
  | Some (Dir es) => (os_makedirs false dst ;; fun fs' => Ok tt (place dst (Dir es) fs')) fs
  | _ => Raise OtherOSError fs
  end.

(** [shutil.copy2(src, dst)]. *)
Definition shutil_copy2 (src dst : path) : M unit := fun fs =>
  match lookup src fs with
  | Some (File data) => write_file dst data fs
  | _ => Raise OtherOSError fs
  end.

(** [shutil._samefile]: without links, the same existing path. *)
Definition samefile (src dst : path) (fs : node) : bool :=
  exists_ src fs && exists_ dst fs && path_eqb src dst.

(** [shutil.move(src, dst)]:
<<
    real_dst = dst
    if os.path.isdir(dst):
        if _samefile(src, dst):
            os.rename(src, dst); return
        real_dst = os.path.join(dst, _basename(src))
        if os.path.exists(real_dst): raise Error(...)
    try: os.rename(src, real_dst)
    except OSError:
        if os.path.islink(src): ...
        elif os.path.isdir(src):
            if _destinsrc(src, dst): raise Error(...)
            copytree(src, real_dst, symlinks=True); rmtree(src)
        else:
            copy_function(src, real_dst); os.unlink(src)
>> *)
Definition rename_or_copy (src dst real_dst : path) : M unit := fun fs =>
  match os_rename src real_dst fs with
  | Ok _ fs' => Ok tt fs'
  | Raise _ _ =>
      if isdir src fs then
        if is_prefix src dst then Raise ShutilError fs
        else (shutil_copytree src real_dst ;; shutil_rmtree src) fs
      else (shutil_copy2 src real_dst ;; os_unlink src) fs
  end.

Definition shutil_move (src dst : path) : M unit := fun fs =>
  if isdir dst fs then
    if samefile src dst fs then os_rename src dst fs
    else
      let real_dst := os_path_join dst (last src EmptyString) in
      if exists_ real_dst fs then Raise ShutilError fs
      else rename_or_copy src dst real_dst fs
  else rename_or_copy src dst dst fs.

(** [glob._ishidden]. *)
Definition _ishidden (name : string) : bool := PyStr.startswith "." name.

(** [glob._rlistdir(dirname, dironly=True)]: the directories below a node
    that can be reached through names that are not hidden, each with its
    path relative to the node, a directory before what it contains. *)
Fixpoint _rlistdir (n : node) : list (path * node) :=
  match n with
  | File _ => []
  | Dir es =>
      (fix walk (es : list (string * node)) : list (path * node) :=
         match es with
         | [] => []
         | (x, c) :: es' =>
             match c with
             | Dir _ =>
                 if _ishidden x then walk es'
                 else (([x], c) :: map (fun d => (x :: fst d, snd d)) (_rlistdir c))
                        ++ walk es'
             | File _ => walk es'
             end
         end) es
  end.

(** [glob._glob2(root, "**", dironly=True)]: [root] itself when it is a
    directory, then what [_rlistdir] finds. *)
Definition _glob2 (root : path) (fs : node) : list (path * node) :=
  match lookup root fs with
  | Some (Dir es) => ([], Dir es) :: _rlistdir (Dir es)
  | _ => []
  end.

(** [glob._glob1(dir, "*" + suffix)]: the entries of a directory, of any
    kind, whose name is not hidden and matches. *)
Definition _glob1 (suffix : string) (dir : node) : list string :=
  match dir with
  | Dir es =>
      map fst (filter (fun e => negb (_ishidden (fst e))
                                && PyStr.endswith (fst e) suffix) es)
  | File _ => []
  end.

(** [glob.glob(os.path.join(root, "**/*" + suffix), recursive=True)] for a
    root that [glob] takes as it is written: it expands the characters
    [*], [?] and [[] of a root as a pattern, which this definition does
    not ([plain_path] below). *)
Definition glob_recursive (root : path) (suffix : string) (fs : node) : list path :=
  flat_map (fun d => map (fun name => root ++ fst d ++ [name]) (_glob1 suffix (snd d)))
           (_glob2 root fs).

(** [glob.glob(os.path.join(root, "*", name))], for a root that [glob]
    takes as it is written: for each directory entry of [root] whose name
    is not hidden, in listing order, the path [root/entry/name] when
    something exists there. *)
Definition glob_one_level (root : path) (name : string) (fs : node) : list path :=
  match lookup root fs with
  | Some (Dir es) =>
      flat_map (fun e =>
                  match snd e with
                  | Dir sub =>
                      if _ishidden (fst e) then []
                      else match child name sub with
                           | Some _ => [root ++ [fst e; name]]
                           | None => []
                           end
                  | File _ => []
                  end) es
  | _ => []
  end.

End Py.

(* ================================================================== *)
(** * Values read from JSON *)
(* ================================================================== *)

Inductive pyval : Type :=
| PyNone
| PyBool (b : bool)
| PyInt (z : Z)
| PyFloat (literal : string)
| PyStr (s : string)
| PyList (items : list pyval)
| PyDict (items : list (string * pyval)).

Fixpoint assoc (key : string) (d : list (string * pyval)) : option pyval :=
  match d with
  | [] => None
  | (k, v) :: d' => if String.eqb k key then Some v else assoc key d'
  end.

(** [data.get(key)]; [None] of the option stands for the [AttributeError]
    of a value that is not a [dict]. *)
Definition py_get (data : pyval) (key : string) : option pyval :=
  match data with
  | PyDict d => Some (match assoc key d with Some v => v | None => PyNone end)
  | _ => None
  end.

(** [x or default] on an optional string: [None] and the empty string are falsy. *)
Definition py_or (x : option string) (default : string) : string :=
  match x with
  | Some EmptyString | None => default
  | Some s => s
  end.

(* ================================================================== *)
(** * What the program takes from [zipfile], [tarfile] and [json] *)
(* ================================================================== *)

(** The container and metadata formats are those of the libraries; the
    program only depends on the following behaviour.
    - [zip_extractall archive dest] is
      [with zipfile.ZipFile(archive) as zf: zf.extractall(dest)],
      [tar_extractall] the same with [tarfile.open(archive, "r:gz")]:
      each transforms the file system or raises.
    - [utf8_decode] turns the bytes of a file into text and [json_loads]
      parses it; [None] stands for the exception raised.
    - [py_repr v] is [str(v)] for a value that is not a string. *)
Class Libraries : Type := {
  zip_extractall : path -> path -> M unit;
  tar_extractall : path -> path -> M unit;
  utf8_decode : string -> option string;
  json_loads : string -> option pyval;
  py_repr : pyval -> string
}.

(** [str(v)]. *)
Definition py_str `{Libraries} (v : pyval) : string :=
  match v with
  | PyStr s => s
  | _ => py_repr v
  end.

(* ================================================================== *)
(** * The program *)
(* ================================================================== *)

Section Program.

Context `{Libraries}.

Import FS Py.

(** The suffix tests of [_extract_archive], on the lower-cased path. *)
Definition is_zip (archive : path) : bool :=
  PyStr.endswith (PyStr.lower (path_str archive)) ".zip".

Definition is_targz (archive : path) : bool :=
  PyStr.endswith (PyStr.lower (path_str archive)) ".tar.gz"
  || PyStr.endswith (PyStr.lower (path_str archive)) ".tgz".

Definition _extract_archive (archive_path dest_dir : path) : M bool :=
  os_makedirs true dest_dir ;;
  if is_zip archive_path then
    zip_extractall archive_path dest_dir ;;
    ret true
  else if is_targz archive_path then
    tar_extractall archive_path dest_dir ;;
    ret true
  else ret false.

(** [with open(pkg, "r", encoding="utf-8") as f: json.load(f)]; [None]
    stands for any exception. *)
Definition load_json (pkg : path) (fs : node) : option pyval :=
  match lookup pkg fs with
  | Some (File data) =>
      match utf8_decode data with
      | Some text => json_loads text
      | None => None
      end
  | _ => None
  end.

(** The [try] block of [_read_api_version]. *)
Definition version_of_file (pkg : path) (fs : node) : option string :=
  match load_json pkg fs with
  | Some data =>
      match py_get data "apiVersion" with
      | Some PyNone => None
      | Some v => Some (py_str v)
      | None => None
      end
  | None => None
  end.

Definition metadata_name : string := "oh-uni-package.json".

Definition _read_api_version (component_root : path) (fs : node) : option string :=
  let pkg := os_path_join component_root metadata_name in
  if negb (isfile pkg fs) then
    let candidates := glob_one_level component_root metadata_name fs in
    match candidates with
    | [] => None
    | pkg :: _ => version_of_file pkg fs
    end
  else version_of_file pkg fs.

Definition archive_suffixes : list string := [".zip"; ".tar.gz"; ".tgz"].

Definition _find_archives_recursively (root : path) (fs : node) : list path :=
  flat_map (fun suffix => glob_recursive root suffix fs) archive_suffixes.

Record config : Type := {
  toolchain_prefix : path;
  platform : string
}.

Definition newline : string := String "010"%char EmptyString.

Definition marker_text : string := (SDK_VERSION ++ newline)%string.

(** The body of the [for archive in archives] loop of [start], where
    every line is printed and the metadata can be read;
    [process_archive_in] below has the [print] calls. *)
Definition process_archive (prefix platform_dir archive : path) : M unit :=
  let comp := _comp_of (path_str archive) in
  extracted <- _extract_archive archive platform_dir ;;
  if negb extracted then ret tt
  else
    let source_dir := os_path_join platform_dir comp in
    found <- gets (_read_api_version source_dir) ;;
    let api_version := py_or found "unknown" in
    let target_dir := os_path_join prefix api_version in
    present <- gets (exists_ target_dir) ;;
    (if present then shutil_rmtree target_dir else ret tt) ;;
    os_makedirs false target_dir ;;
    shutil_move source_dir target_dir.

Definition wanted_archives (all_archives : list path) : list path :=
  filter (fun a => wanted (_comp_of (path_str a))) all_archives.

Definition start (cfg : config) : M unit :=
  let prefix := toolchain_prefix cfg in
  present <- gets (exists_ prefix) ;;
  (if negb present then os_makedirs false prefix else ret tt) ;;
  try_pass (write_file (os_path_join prefix ".ohos-sdk-version") marker_text) ;;
  let sdk_dir := os_path_join prefix "ohos-sdk" in
  staged <- gets (isdir sdk_dir) ;;
  if negb staged then ret tt
  else
    let platform_name := _platform_dir_name (platform cfg) in
    let platform_dir := os_path_join sdk_dir platform_name in
    all_archives <- gets (_find_archives_recursively platform_dir) ;;
    let archives := wanted_archives all_archives in
    for_each (process_archive prefix platform_dir) archives ;;
    shutil_rmtree_ignore_errors sdk_dir.





(** ** Views of the program used to state its properties *)

(** The file [_read_api_version] settles on before it opens it. *)
Definition located_metadata (component_root : path) (fs : node) : option path :=
  let pkg := os_path_join component_root metadata_name in
  if isfile pkg fs then Some pkg
  else hd_error (glob_one_level component_root metadata_name fs).

(** A directory entry that contributes a candidate one level below. *)
Definition qualifies (e : string * node) : bool :=
  match snd e with
  | Dir sub =>
      negb (_ishidden (fst e))
      && match child metadata_name sub with Some _ => true | None => false end
  | File _ => false
  end.

(** [start] up to the test for the staging directory. *)
Definition prepare (prefix : path) : M unit :=
  present <- gets (exists_ prefix) ;;
  (if negb present then os_makedirs false prefix else ret tt) ;;
  try_pass (write_file (os_path_join prefix ".ohos-sdk-version") marker_text).

(** The loop body after a successful extraction: remove, create, move. *)
Definition relocate (prefix source_dir : path) : M unit :=
  found <- gets (_read_api_version source_dir) ;;
  let api_version := py_or found "unknown" in
  let target_dir := os_path_join prefix api_version in
  present <- gets (exists_ target_dir) ;;
  (if present then shutil_rmtree target_dir else ret tt) ;;
  os_makedirs false target_dir ;;
  shutil_move source_dir target_dir.

Definition recognized (archive : path) : bool := is_zip archive || is_targz archive.




Definition sdk_dir_of (cfg : config) : path :=
  os_path_join (toolchain_prefix cfg) "ohos-sdk".

Definition platform_dir_of (cfg : config) : path :=
  os_path_join (sdk_dir_of cfg) (_platform_dir_name (platform cfg)).

Definition marker_of (cfg : config) : path :=
  os_path_join (toolchain_prefix cfg) ".ohos-sdk-version".


End Program.

(* ================================================================== *)
(** * Fixtures for the examples *)
(* ================================================================== *)

Module Demo.

Import FS Py.

(** A toy container: the bytes of an archive name its payload, the
    top-level entries it unpacks into the destination.  Bytes that name no
    payload are a corrupt archive. *)
Definition payload (data : string) : option (list (string * node)) :=
  if String.eqb data "pack:native-12" then
    Some [("native", Dir [("oh-uni-package.json", File "apiVersion=12");
                          ("libace.so", File "ELF")])]
  else if String.eqb data "pack:native-alias" then
    Some [("native", Dir [("oh-uni-package.json", File "apiVersion=ohos-sdk/linux/native")])]
  else if String.eqb data "pack:empty" then Some []
  else None.

Definition unpack (archive dest : path) : M unit := fun fs =>
  match lookup archive fs with
  | Some (File data) =>
      match payload data with
      | Some entries =>
          Ok tt (fold_left (fun fs' e => place (dest ++ [fst e]) (snd e) fs') entries fs)
      | None => Raise ArchiveError fs
      end
  | _ => Raise OtherOSError fs
  end.

(** The metadata documents of the examples, by their text:
    [apiVersion=v] is the JSON object with the string [v] under
    [apiVersion], [apiVersion=null] the object with a JSON [null] there,
    [name=x] an object without the field, [list] a JSON array; any other
    text is not valid JSON. *)
Definition loads (text : string) : option pyval :=
  if String.eqb text "apiVersion=12" then Some (PyDict [("apiVersion", PyStr "12")])
  else if String.eqb text "apiVersion=9" then Some (PyDict [("apiVersion", PyStr "9")])
  else if String.eqb text "apiVersion=ohos-sdk/linux/native" then
    Some (PyDict [("apiVersion", PyStr "ohos-sdk/linux/native")])
  else if String.eqb text "apiVersion=null" then Some (PyDict [("apiVersion", PyNone)])
  else if String.eqb text "name=x" then Some (PyDict [("name", PyStr "x")])
  else if String.eqb text "list" then Some (PyList [])
  else None.

(** Text is ASCII; a file whose first byte is 255 does not decode. *)
Definition decode (data : string) : option string :=
  match data with
  | String c _ => if Ascii.eqb c "255"%char then None else Some data
  | EmptyString => Some data
  end.

Definition repr (v : pyval) : string :=
  match v with
  | PyNone => "None"
  | PyBool true => "True"
  | PyBool false => "False"
  | _ => "?"
  end.

Definition libs : Libraries := {|
  zip_extractall := unpack;
  tar_extractall := unpack;
  utf8_decode := decode;
  json_loads := loads;
  py_repr := repr
|}.

Definition cfg : config := {| toolchain_prefix := ["opt"; "sdk"]; platform := "linux" |}.

(** An installation prefix with a component installed by an earlier run
    and a staged bundle. *)
Definition staged (archives : list (string * node)) : node :=
  Dir [("opt", Dir [("sdk", Dir [
     ("12", Dir [("native", Dir [("stale.txt", File "old")])]);
     ("ohos-sdk", Dir [("linux", Dir archives)])])])].

(** A bundle with one component archive and one archive in a format the
    extractor does not know. *)
Definition bundle : node :=
  staged [("native-api12.tar.gz", File "pack:native-12");
          ("toolchains.rar", File "pack:empty")].

Definition linux_dir : path := ["opt"; "sdk"; "ohos-sdk"; "linux"].


(** A prefix that cannot be created: [/opt] is a regular file. *)
Definition blocked : node := Dir [("opt", File "not a directory")].

(** The bundle of the end-to-end scenario of the specification. *)
Definition scenario : node :=
  staged [("native-api12.tar.gz", File "pack:native-12");
          ("random-extra.zip", File "pack:empty")].

(** A component whose metadata names its own working directory as the
    version key. *)
Definition alias_bundle : node :=
  staged [("native-api12.tar.gz", File "pack:native-alias")].

Definition native_archive : path := linux_dir ++ ["native-api12.tar.gz"].


(** A component root without metadata of its own and two subdirectories
    that have some; the directory lists [b] before [a]. *)
Definition two_candidates : node :=
  Dir [("comp", Dir [
     ("b", Dir [("oh-uni-package.json", File "apiVersion=12")]);
     ("a", Dir [("oh-uni-package.json", File "apiVersion=9")])])].

(** A component root whose metadata holds a JSON [null] under [apiVersion]. *)
Definition null_version : node :=
  Dir [("comp", Dir [("oh-uni-package.json", File "apiVersion=null")])].

End Demo.


(* ================================================================== *)
(** * Views of file-system states *)
(* ================================================================== *)

(** The entries of a directory, in listing order. *)
Definition listing (dir : node) : list (string * node) :=
  match dir with
  | Dir es => es
  | File _ => []
  end.


(** Every path that exists in [fs] exists in [fs']. *)
Definition keeps (fs fs' : node) : Prop :=
  forall q n, FS.lookup q fs = Some n -> exists n', FS.lookup q fs' = Some n'.

(** [fs] and [fs'] hold the same thing at every path that is neither [m]
    nor one of its ancestors. *)
Definition same_off (m : path) (fs fs' : node) : Prop :=
  forall q, is_prefix q m = false -> FS.lookup q fs' = FS.lookup q fs.

(* ================================================================== *)
(** * The constructor *)
(* ================================================================== *)

Definition SDK_CHECKSUMS : list (string * string) :=
  [("ohos-sdk-windows_linux-public.tar.gz",
    "a315834ac133625efc912bd078f3e2b2550868d04aef1b5aa4f9679c8b3c9d8e");
   ("ohos-sdk-mac-public.tar.gz",
    "e4dea057e8f57a567ae8e6d45a3a20cafa10bc774c1e5f13ad6f154baaa6985c")].

(** [d[key]]; [None] stands for the [KeyError]. *)
Fixpoint dict_item (d : list (string * string)) (key : string) : option string :=
  match d with
  | [] => None
  | (k, v) :: d' => if String.eqb k key then Some v else dict_item d' key
  end.

(** [SDK_BASE_URL % (version, fname)]. *)
Definition sdk_url (version fname : string) : string :=
  ("https://repo.huaweicloud.com/openharmony/os/" ++ version ++ "-Release/" ++ fname)%string.

(** The fields of the bootstrapper the constructor fills: the prefix, the
    [(url, name, checksum)] triples to fetch and the
    [(url, strip, destination)] triples to extract. *)
Record bootstrapper : Type := {
  bs_prefix : path;
  fetch_urls : list (string * option string * string);
  extract_steps : list (string * bool * path)
}.

(** [OpenHarmonyBootstrapper.__init__]; [inherited_fetch] and
    [inherited_steps] are the lists [BootstrapperBase.__init__] leaves, and
    [None] of the option stands for the [KeyError] of the checksum table. *)
Definition __init__ (inherited_fetch : list (string * option string * string))
           (inherited_steps : list (string * bool * path)) (cfg : config)
  : option bootstrapper :=
  let prefix := toolchain_prefix cfg in
  let fname := _filename_for_platform (platform cfg) in
  let url := sdk_url SDK_VERSION fname in
  match dict_item SDK_CHECKSUMS (basename url) with
  | None => None
  | Some checksum =>
      Some {| bs_prefix := prefix;
              fetch_urls := inherited_fetch ++ [(url, None, checksum)];
              extract_steps := inherited_steps ++ [(url, true, os_path_join prefix "ohos-sdk")] |}
  end.

(** Libraries that agree on what the program reads of them, the
    containers being compared on the wanted archives only. *)
Definition agree_on_wanted (L1 L2 : Libraries) : Prop :=
  (forall data, @utf8_decode L1 data = @utf8_decode L2 data)
  /\ (forall text, @json_loads L1 text = @json_loads L2 text)
  /\ (forall v, @py_repr L1 v = @py_repr L2 v)
  /\ (forall a dest fs, wanted (_comp_of (path_str a)) = true ->
        @zip_extractall L1 a dest fs = @zip_extractall L2 a dest fs)
  /\ (forall a dest fs, wanted (_comp_of (path_str a)) = true ->
        @tar_extractall L1 a dest fs = @tar_extractall L2 a dest fs).

(** The relocation with the version [unknown]. *)
Definition relocate_unknown (prefix source_dir : path) : M unit :=
  present <- gets (FS.exists_ (prefix ++ ["unknown"])) ;;
  (if present then Py.shutil_rmtree (prefix ++ ["unknown"]) else ret tt) ;;
  Py.os_makedirs false (prefix ++ ["unknown"]) ;;
  Py.shutil_move source_dir (prefix ++ ["unknown"]).

Module DemoStrict.

(** Containers that refuse every archive outside the whitelist. *)
Definition unpack (archive dest : path) : M unit :=
  if wanted (_comp_of (path_str archive)) then Demo.unpack archive dest
  else fun fs => Raise ArchiveError fs.

Definition libs : Libraries := {|
  zip_extractall := unpack;
  tar_extractall := unpack;
  utf8_decode := Demo.decode;
  json_loads := Demo.loads;
  py_repr := Demo.repr
|}.

(** A prefix on its own, with no staging directory. *)
Definition bare : node := Dir [("opt", Dir [("sdk", Dir [])])].

(** A prefix with an earlier [unknown] install and a staged bundle. *)
Definition with_unknown (archives : list (string * node)) : node :=
  Dir [("opt", Dir [("sdk", Dir [
     ("unknown", Dir [("ets", Dir [("stale.txt", File "old")])]);
     ("ohos-sdk", Dir [("linux", Dir archives)])])])].

(** A JSON reader that also knows the document whose [apiVersion] is the
    empty string. *)
Definition loads (text : string) : option pyval :=
  if String.eqb text "apiVersion=" then Some (PyDict [("apiVersion", PyStr EmptyString)])
  else Demo.loads text.

Definition libs_empty_version : Libraries := {|
  zip_extractall := Demo.unpack;
  tar_extractall := Demo.unpack;
  utf8_decode := Demo.decode;
  json_loads := loads;
  py_repr := Demo.repr
|}.

(** An unpacked component whose metadata holds the empty version. *)
Definition unversioned : node :=
  Dir [("opt", Dir [("sdk", Dir [
     ("ohos-sdk", Dir [("linux", Dir [
        ("ets", Dir [("oh-uni-package.json", File "apiVersion=")])])])])])].

End DemoStrict.

(* ================================================================== *)
(** * Plain names *)
(* ================================================================== *)

(** [glob.has_magic]: the string holds one of [*], [?] and [[], and
    [glob.glob] expands it as a pattern. *)
Definition has_magic (s : string) : bool :=
  PyStr.occurs "*" s || PyStr.occurs "?" s || PyStr.occurs "[" s.

Definition NUL : ascii := Ascii.zero.

Definition is_dots (c : string) : bool := String.eqb c "." || String.eqb c "..".

(** The name of a directory entry that the operating system and [glob]
    read as it is written: it is not empty, [.] or [..], and it holds no
    [/], no NUL and no glob character. *)
Definition plain_name (c : string) : bool :=
  negb (String.eqb c EmptyString) && negb (is_dots c)
  && negb (PyStr.occurs "/" c) && negb (PyStr.occurs NUL c) && negb (has_magic c).

Definition plain_path (p : path) : bool := forallb plain_name p.

(** A string joined to a directory with [os.path.join] that names the
    path the model gives it: no NUL, and no component [.] or [..]. *)
Definition plain_key (s : string) : bool :=
  negb (PyStr.occurs NUL s)
  && forallb (fun c => negb (is_dots c)) (PyStr.split "/" s).

(** A configuration with a plain prefix and a plain, relative platform
    identifier without glob characters. *)
Definition plain_config (cfg : config) : bool :=
  plain_path (toolchain_prefix cfg)
  && plain_key (platform cfg)
  && negb (has_magic (platform cfg))
  && negb (PyStr.startswith "/" (platform cfg)).

(* ================================================================== *)
(** * The suffix tests as the specification words them *)
(* ================================================================== *)

(** The same character, or the same letter of the ASCII alphabet in the
    two cases. *)
Definition is_upper (c : ascii) : bool :=
  Nat.leb 65 (nat_of_ascii c) && Nat.leb (nat_of_ascii c) 90.

Definition same_letter (a b : ascii) : bool :=
  Ascii.eqb a b
  || (is_upper a && Nat.eqb (nat_of_ascii a + 32) (nat_of_ascii b))
  || (is_upper b && Nat.eqb (nat_of_ascii b + 32) (nat_of_ascii a)).

Fixpoint eq_ci (s t : string) : bool :=
  match s, t with
  | EmptyString, EmptyString => true
  | String a s', String b t' => same_letter a b && eq_ci s' t'
  | _, _ => false
  end.

(** [s] ends in [suf], case apart. *)
Fixpoint endswith_ci (s suf : string) : bool :=
  if eq_ci s suf then true
  else match s with
       | EmptyString => false
       | String _ s' => endswith_ci s' suf
       end.

(* ================================================================== *)
(** * The program in an environment that can refuse *)
(* ================================================================== *)

(** What the surroundings of the program decide, and the tree does not
    show.
    - [stdout_accepts line]: [print(line)] returns; otherwise it raises
      (the line cannot be encoded for [sys.stdout], or the stream is
      closed).
    - [may_read p]: the file at [p] can be opened and read to its end.
    - [disk_keeps p data]: what a write of [data] to [p] leaves in the
      file once it could be opened for writing, [data] itself when the
      write met no error; [None] when the file cannot be opened.
    - [may_remove p]: the removal of the entry at [p] that
      [shutil.rmtree] attempts meets no error: the entry is reached and
      unlinked or, once it is an empty directory, removed. *)
Class Environment : Type := {
  stdout_accepts : string -> bool;
  may_read : path -> bool;
  disk_keeps : path -> string -> option string;
  may_remove : path -> bool
}.

Section InEnvironment.

Context `{Libraries} `{Environment}.

Import FS Py.

(** [print(line)]. *)
Definition print_line (line : string) : M unit :=
  fun fs => if stdout_accepts line then Ok tt fs else Raise PrintError fs.

(** The three lines the loop prints. *)
Definition extracting_line (archive : string) : string :=
  "[OHOS bootstrap] Extracting " ++ archive.

Definition skipping_line (archive : string) : string :=
  "[OHOS bootstrap] Unknown archive format, skipping: " ++ archive.

Definition component_line (comp api_version : string) : string :=
  "[OHOS bootstrap] Component=" ++ comp ++ ", apiVersion=" ++ api_version.

(** [with open(pkg, "r", encoding="utf-8") as f: json.load(f)]. *)
Definition load_json_in (pkg : path) (fs : node) : option pyval :=
  if may_read pkg then load_json pkg fs else None.

Definition version_of_file_in (pkg : path) (fs : node) : option string :=
  match load_json_in pkg fs with
  | Some data =>
      match py_get data "apiVersion" with
      | Some PyNone => None
      | Some v => Some (py_str v)
      | None => None
      end
  | None => None
  end.

Definition _read_api_version_in (component_root : path) (fs : node) : option string :=
  let pkg := os_path_join component_root metadata_name in
  if negb (isfile pkg fs) then
    let candidates := glob_one_level component_root metadata_name fs in
    match candidates with
    | [] => None
    | pkg :: _ => version_of_file_in pkg fs
    end
  else version_of_file_in pkg fs.

(** [open(p, "w")] followed by a write of [data]: the write raises unless
    all of [data] reached the file. *)
Definition write_file_in (p : path) (data : string) : M unit := fun fs =>
  match disk_keeps p data with
  | None => Raise OtherOSError fs
  | Some kept =>
      match write_file p kept fs with
      | Ok _ fs' => if String.eqb kept data then Ok tt fs' else Raise OtherOSError fs'
      | Raise e fs' => Raise e fs'
      end
  end.

(** What [shutil.rmtree(p, ignore_errors=True)] leaves of the directory
    at [here]: it goes through the entries, empties each directory before
    it removes it, and passes over every entry whose removal fails. *)
Fixpoint sweep (here : path) (n : node) : node :=
  match n with
  | File data => File data
  | Dir es =>
      Dir ((fix go (es : list (string * node)) : list (string * node) :=
              match es with
              | [] => []
              | (x, c) :: es' =>
                  match c with
                  | File _ =>
                      if may_remove (here ++ [x]) then go es' else (x, c) :: go es'
                  | Dir _ =>
                      match sweep (here ++ [x]) c with
                      | Dir [] =>
                          if may_remove (here ++ [x]) then go es'
                          else (x, Dir []) :: go es'
                      | kept => (x, kept) :: go es'
                      end
                  end
              end) es)
  end.

(** [shutil.rmtree(p, ignore_errors=True)]: nothing happens when [p] is
    no directory; it never raises. *)
Definition rmtree_quiet (p : path) : M unit := fun fs =>
  match lookup p fs with
  | Some (Dir es) =>
      match sweep p (Dir es) with
      | Dir [] =>
          match p with
          | _ :: _ => if may_remove p then Ok tt (remove p fs)
                      else Ok tt (place p (Dir []) fs)
          | [] => Ok tt (Dir [])
          end
      | kept => Ok tt (place p kept fs)
      end
  | _ => Ok tt fs
  end.

(** Lines 150 to 155: remove, create, move. *)
Definition relocate_to (source_dir target_dir : path) : M unit :=
  present <- gets (exists_ target_dir) ;;
  (if present then shutil_rmtree target_dir else ret tt) ;;
  os_makedirs false target_dir ;;
  shutil_move source_dir target_dir.

(** The body of the [for archive in archives] loop of [start]. *)
Definition process_archive_in (prefix platform_dir archive : path) : M unit :=
  print_line (extracting_line (path_str archive)) ;;
  let comp := _comp_of (path_str archive) in
  extracted <- _extract_archive archive platform_dir ;;
  if negb extracted then print_line (skipping_line (path_str archive))
  else
    let source_dir := os_path_join platform_dir comp in
    found <- gets (_read_api_version_in source_dir) ;;
    let api_version := py_or found "unknown" in
    print_line (component_line comp api_version) ;;
    let target_dir := os_path_join prefix api_version in
    present <- gets (exists_ target_dir) ;;
    (if present then shutil_rmtree target_dir else ret tt) ;;
    os_makedirs false target_dir ;;
    shutil_move source_dir target_dir.

Definition start_in (cfg : config) : M unit :=
  let prefix := toolchain_prefix cfg in
  present <- gets (exists_ prefix) ;;
  (if negb present then os_makedirs false prefix else ret tt) ;;
  try_pass (write_file_in (os_path_join prefix ".ohos-sdk-version") marker_text) ;;
  let sdk_dir := os_path_join prefix "ohos-sdk" in
  staged <- gets (isdir sdk_dir) ;;
  if negb staged then ret tt
  else
    let platform_name := _platform_dir_name (platform cfg) in
    let platform_dir := os_path_join sdk_dir platform_name in
    all_archives <- gets (_find_archives_recursively platform_dir) ;;
    let archives := wanted_archives all_archives in
    for_each (process_archive_in prefix platform_dir) archives ;;
    rmtree_quiet sdk_dir.

(** ** Views of the program in its environment *)

(** [start_in] up to the test for the staging directory. *)
Definition prepare_in (prefix : path) : M unit :=
  present <- gets (exists_ prefix) ;;
  (if negb present then os_makedirs false prefix else ret tt) ;;
  try_pass (write_file_in (os_path_join prefix ".ohos-sdk-version") marker_text).

(** The version key the loop resolves for a working directory. *)
Definition version_key (source_dir : path) (fs : node) : string :=
  py_or (_read_api_version_in source_dir fs) "unknown".



End InEnvironment.

(** The environment that refuses nothing. *)
Definition willing : Environment := {|
  stdout_accepts := fun _ => true;
  may_read := fun _ => true;
  disk_keeps := fun _ data => Some data;
  may_remove := fun _ => true
|}.

Module DemoEnv.

(** A terminal that takes ASCII only, a staged archive that cannot be
    removed, a marker that cannot be opened for writing and a metadata
    file that cannot be read. *)
Fixpoint ascii_only (line : string) : bool :=
  match line with
  | EmptyString => true
  | String c line' => Nat.ltb (nat_of_ascii c) 128 && ascii_only line'
  end.

Definition stubborn : Environment := {|
  stdout_accepts := ascii_only;
  may_read := fun p => negb (path_eqb p ["comp"; "oh-uni-package.json"]);
  disk_keeps := fun _ _ => None;
  may_remove := fun p => negb (path_eqb p (Demo.linux_dir ++ ["random-extra.zip"]))
|}.

(** A bundle whose archive has a name outside ASCII. *)
Definition accented_name : string :=
  ("native-" ++ String (ascii_of_nat 233) ".zip")%string.

Definition accented : node :=
  Demo.staged [(accented_name, File "pack:native-12")].

(** A component whose metadata is valid and cannot be read. *)
Definition guarded : node :=
  Dir [("comp", Dir [("oh-uni-package.json", File "apiVersion=12")])].

End DemoEnv.

Unset Implicit Arguments.

(* ================================================================== *)
(** * Properties of the string helpers *)
(* ================================================================== *)

Section StringFacts.

Import PyStr.

Lemma split_first_before (c : ascii) (s : string) :
  first (split c s) = before_first (fun x => Ascii.eqb x c) s.
Proof.
  induction s as [|a s IH]; simpl; [reflexivity|].
  destruct (Ascii.eqb a c); [reflexivity|].
  destruct (split c s) as [|w ws]; simpl in *; now rewrite <- IH.
Qed.

Lemma split_absent (c : ascii) (s : string) :
  occurs c s = false -> split c s = [s].
Proof.
  induction s as [|a s IH]; simpl; [reflexivity|].
  intros Hocc. apply orb_false_iff in Hocc as [Ha Hs].
  rewrite Ha, (IH Hs). reflexivity.
Qed.

Lemma before_first_twice (s : string) :
  before_first (fun x => Ascii.eqb x "_") (before_first (fun x => Ascii.eqb x "-") s)
  = before_first is_dash_or_underscore s.
Proof.
  induction s as [|a s IH]; simpl; [reflexivity|].
  unfold is_dash_or_underscore in *.
  destruct (Ascii.eqb a "-"); simpl; [reflexivity|].
  destruct (Ascii.eqb a "_"); simpl; [reflexivity|].
  now rewrite IH.
Qed.

Lemma before_first_clean (stop : ascii -> bool) (s : string) :
  (forall c, stop c = true -> occurs c s = false) -> before_first stop s = s.
Proof.
  induction s as [|a s IH]; simpl; intros Hclean; [reflexivity|].
  destruct (stop a) eqn:Ha.
  - specialize (Hclean a Ha). now rewrite Ascii.eqb_refl in Hclean.
  - f_equal. apply IH. intros c Hc. specialize (Hclean c Hc).
    now apply orb_false_iff in Hclean.
Qed.

Lemma basename_plain (name : string) :
  occurs "/" name = false -> basename name = name.
Proof. intros Hocc. unfold basename. now rewrite (split_absent _ _ Hocc). Qed.

(** The classifier of the program, on any path, is the classifier of the
    specification on the base name of the path. *)
Lemma comp_of_basename (p : string) : _comp_of p = classify_spec (basename p).
Proof.
  unfold _comp_of, classify_spec.
  rewrite !split_first_before. apply before_first_twice.
Qed.

Lemma append_assoc (a b c : string) : ((a ++ b) ++ c = a ++ (b ++ c))%string.
Proof. induction a as [|x a IH]; simpl; [reflexivity|now rewrite IH]. Qed.

Lemma append_empty_r (a : string) : (a ++ EmptyString)%string = a.
Proof. induction a as [|x a IH]; simpl; [reflexivity|now rewrite IH]. Qed.

Lemma endswith_unfold (s suf : string) :
  endswith s suf =
  if String.eqb s suf then true
  else match s with
       | EmptyString => false
       | String _ s' => endswith s' suf
       end.
Proof. destruct s; reflexivity. Qed.

Lemma endswith_iff (s suf : string) :
  endswith s suf = true <-> exists pre, s = (pre ++ suf)%string.
Proof.
  induction s as [|a s IH]; rewrite endswith_unfold.
  - destruct (String.eqb EmptyString suf) eqn:E.
    + apply String.eqb_eq in E. split; [|reflexivity].
      intros _. exists EmptyString. now subst.
    + apply String.eqb_neq in E. split; [discriminate|].
      intros [pre Hpre]. destruct pre; simpl in Hpre; [|discriminate].
      now subst suf.
  - destruct (String.eqb (String a s) suf) eqn:E.
    + apply String.eqb_eq in E. split; [|reflexivity].
      intros _. exists EmptyString. now subst.
    + apply String.eqb_neq in E. rewrite IH. split.
      * intros [pre Hpre]. exists (String a pre). simpl. now rewrite Hpre.
      * intros [pre Hpre]. destruct pre as [|b pre]; simpl in Hpre.
        -- now subst suf.
        -- injection Hpre as _ Hs. now exists pre.
Qed.

Lemma lower_append (a b : string) : lower (a ++ b) = (lower a ++ lower b)%string.
Proof. induction a as [|x a IH]; simpl; [reflexivity|now rewrite IH]. Qed.

Lemma lower_split (s u v : string) :
  lower s = (u ++ v)%string ->
  exists a b, s = (a ++ b)%string /\ lower a = u /\ lower b = v.
Proof.
  revert u. induction s as [|x s IH]; intros u Hs; simpl in Hs.
  - destruct u; simpl in Hs; [|discriminate]. subst v.
    now exists EmptyString, EmptyString.
  - destruct u as [|y u]; simpl in Hs.
    + exists EmptyString, (String x s). now subst v.
    + injection Hs as Hy Hrest. destruct (IH _ Hrest) as (a & b & Hab & Ha & Hb).
      exists (String x a), b. simpl. now subst.
Qed.

(** The suffix test on the lower-cased string is the test for a suffix
    that lower-cases to the one looked for. *)
Lemma endswith_lower_iff (s suf : string) :
  endswith (lower s) suf = true
  <-> exists stem tail, s = (stem ++ tail)%string /\ lower tail = suf.
Proof.
  rewrite endswith_iff. split.
  - intros [pre Hpre]. destruct (lower_split _ _ _ Hpre) as (a & b & Hab & _ & Hb).
    now exists a, b.
  - intros (stem & tail & Hs & Htail). exists (lower stem).
    now rewrite Hs, lower_append, Htail.
Qed.

Lemma endswith_lower (s suf : string) :
  lower suf = suf -> endswith s suf = true -> endswith (lower s) suf = true.
Proof.
  intros Hsuf Hend. apply endswith_lower_iff.
  apply endswith_iff in Hend as [pre Hpre]. now exists pre, suf.
Qed.

Lemma endswith_append (pre s suf : string) :
  endswith s suf = true -> endswith (pre ++ s) suf = true.
Proof.
  rewrite !endswith_iff. intros [q Hq]. exists (pre ++ q)%string.
  now rewrite Hq, append_assoc.
Qed.

End StringFacts.

(** C2.  For a file name (a string without [/]) the token the classifier
    of the program returns is the part of the name before its first [.],
    cut before the first [-] or [_] of that part; it is that whole part
    when it holds neither character, and the empty string when the name
    begins with [.].  On the three names of the specification the tokens
    are [native], [js] and [previewer]. *)
Theorem comp_of_is_classifier (name : string) :
  PyStr.occurs "/" name = false ->
  _comp_of name = classify_spec name
  /\ (PyStr.occurs "-" (PyStr.before_first is_dot name) = false ->
      PyStr.occurs "_" (PyStr.before_first is_dot name) = false ->
      _comp_of name = PyStr.before_first is_dot name)
  /\ (PyStr.startswith "." name = true -> _comp_of name = EmptyString)
  /\ _comp_of "native-api12.tar.gz" = "native"
  /\ _comp_of "js_sdk.zip" = "js"
  /\ _comp_of "previewer.tgz" = "previewer".
Proof.
  intros Hname.
  assert (Hspec : _comp_of name = classify_spec name)
    by (now rewrite comp_of_basename, basename_plain).
  split; [exact Hspec|]. split; [|split; [|repeat split]].
  - intros Hdash Hunder. rewrite Hspec. unfold classify_spec.
    apply before_first_clean. intros c Hc. unfold is_dash_or_underscore in Hc.
    apply orb_true_iff in Hc as [Hc|Hc]; apply Ascii.eqb_eq in Hc; now subst c.
  - intros Hdot. rewrite Hspec. destruct name as [|c s]; [discriminate|].
    simpl in Hdot. unfold classify_spec. simpl. unfold is_dot. now rewrite Hdot.
Qed.

Lemma comp_of_is_classifier_witness :
  _comp_of "native-api12.tar.gz" = classify_spec "native-api12.tar.gz".
Proof.
  apply (comp_of_is_classifier "native-api12.tar.gz"). reflexivity.
Defined.

(* ================================================================== *)
(** * Properties of the file-system model *)
(* ================================================================== *)

Section PathFacts.

Lemma path_eqb_eq (p q : path) : path_eqb p q = true <-> p = q.
Proof.
  revert q. induction p as [|x p IH]; intros [|y q]; simpl; split;
    try discriminate; try reflexivity.
  - intros Hb. apply andb_true_iff in Hb as [Hx Hp].
    apply String.eqb_eq in Hx. apply IH in Hp. now subst.
  - intros Heq. injection Heq as -> ->. rewrite String.eqb_refl. now apply IH.
Qed.

Lemma path_eqb_refl (p : path) : path_eqb p p = true.
Proof. now apply path_eqb_eq. Qed.

Lemma is_prefix_iff (p q : path) : is_prefix p q = true <-> exists r, q = p ++ r.
Proof.
  revert q. induction p as [|x p IH]; intros q; simpl.
  - split; [intros _; now exists q|reflexivity].
  - destruct q as [|y q].
    + split; [discriminate|]. intros [r Hr]. discriminate.
    + rewrite andb_true_iff, String.eqb_eq, IH. split.
      * intros [-> [r ->]]. now exists r.
      * intros [r Hr]. injection Hr as -> ->. split; [reflexivity|now exists r].
Qed.

Lemma is_prefix_app (p r : path) : is_prefix p (p ++ r) = true.
Proof. apply is_prefix_iff. now exists r. Qed.

Lemma is_prefix_refl (p : path) : is_prefix p p = true.
Proof. apply is_prefix_iff. exists []. now rewrite app_nil_r. Qed.

Lemma is_prefix_trans (p q r : path) :
  is_prefix p q = true -> is_prefix q r = true -> is_prefix p r = true.
Proof.
  rewrite !is_prefix_iff. intros [a ->] [b ->]. exists (a ++ b).
  now rewrite app_assoc.
Qed.

Lemma is_prefix_snoc (p q : path) (x : string) :
  is_prefix p (q ++ [x]) = true -> is_prefix p q = true \/ p = q ++ [x].
Proof.
  rewrite !is_prefix_iff. intros [r Hr].
  induction r as [|z r _] using rev_ind.
  - right. now rewrite app_nil_r in Hr.
  - left. rewrite app_assoc in Hr. apply app_inj_tail in Hr as [Hq _]. now exists r.
Qed.

End PathFacts.

Section TreeFacts.

Import FS.

Lemma child_set_same x c es : child x (set_child x c es) = Some c.
Proof.
  induction es as [|[y d] es IH]; simpl.
  - now rewrite String.eqb_refl.
  - destruct (String.eqb y x) eqn:E; simpl; rewrite E; [reflexivity|exact IH].
Qed.

Lemma child_set_other x y c es :
  String.eqb x y = false -> child y (set_child x c es) = child y es.
Proof.
  intros Hxy. induction es as [|[z d] es IH]; simpl.
  - now rewrite Hxy.
  - destruct (String.eqb z x) eqn:E; simpl.
    + apply String.eqb_eq in E. subst z. now rewrite Hxy.
    + now rewrite IH.
Qed.

Lemma child_del_same x es : child x (del_child x es) = None.
Proof.
  induction es as [|[y d] es IH]; simpl; [reflexivity|].
  destruct (String.eqb y x) eqn:E; simpl; [exact IH|now rewrite E].
Qed.

Lemma child_del_other x y es :
  String.eqb x y = false -> child y (del_child x es) = child y es.
Proof.
  intros Hxy. induction es as [|[z d] es IH]; simpl; [reflexivity|].
  destruct (String.eqb z x) eqn:E; simpl.
  - apply String.eqb_eq in E. subst z. now rewrite Hxy.
  - now rewrite IH.
Qed.

Lemma set_child_id x c es : child x es = Some c -> set_child x c es = es.
Proof.
  induction es as [|[y d] es IH]; simpl; [discriminate|].
  destruct (String.eqb y x) eqn:E.
  - now intros [= ->].
  - intros Hc. now rewrite IH.
Qed.


Lemma lookup_app p q fs :
  lookup (p ++ q) fs = match lookup p fs with
                       | Some n => lookup q n
                       | None => None
                       end.
Proof.
  revert fs. induction p as [|x p IH]; intros fs; simpl; [reflexivity|].
  destruct fs as [d|es]; [reflexivity|]. destruct (child x es); [apply IH|reflexivity].
Qed.

Lemma lookup_prefix_some p q fs n :
  lookup (p ++ q) fs = Some n -> exists m, lookup p fs = Some m.
Proof. rewrite lookup_app. destruct (lookup p fs) as [m|]; [now exists m|discriminate]. Qed.


Lemma exists_prefix p q fs :
  is_prefix p q = true -> exists_ q fs = true -> exists_ p fs = true.
Proof.
  intros Hpre. apply is_prefix_iff in Hpre as [r ->]. unfold exists_.
  destruct (lookup (p ++ r) fs) eqn:E; [|discriminate].
  apply lookup_prefix_some in E as [m ->]. reflexivity.
Qed.

Lemma lookup_removelast p fs n :
  lookup p fs = Some n -> p <> [] -> exists es, lookup (removelast p) fs = Some (Dir es).
Proof.
  intros Hp Hne. destruct (exists_last Hne) as (q & x & ->).
  rewrite removelast_last. rewrite lookup_app in Hp.
  destruct (lookup q fs) as [[d|es]|]; simpl in Hp; try discriminate. now exists es.
Qed.

(** *** Removing a subtree *)

Lemma lookup_remove_incomparable p q fs :
  is_prefix p q = false -> is_prefix q p = false ->
  lookup q (remove p fs) = lookup q fs.
Proof.
  revert q fs. induction p as [|x p IH]; intros q fs Hpq Hqp; [discriminate|].
  destruct q as [|y q]; [discriminate|]. destruct fs as [d|es]; [reflexivity|].
  simpl in Hpq, Hqp. destruct (String.eqb x y) eqn:Exy.
  - apply String.eqb_eq in Exy. subst y. rewrite String.eqb_refl in Hqp. simpl in *.
    destruct p as [|x' p]; [discriminate|].
    destruct (child x es) as [d|] eqn:Ec; [|simpl; now rewrite Ec].
    simpl. rewrite child_set_same. now apply IH.
  - simpl. destruct p as [|x' p].
    + simpl. now rewrite child_del_other.
    + destruct (child x es) as [d|] eqn:Ec; [|reflexivity].
      simpl. now rewrite child_set_other.
Qed.


Lemma lookup_remove_below p r fs :
  p <> [] -> lookup (p ++ r) (remove p fs) = None.
Proof.
  revert fs. induction p as [|x p IH]; intros fs Hne; [contradiction|].
  destruct fs as [d|es]; [reflexivity|]. simpl. destruct p as [|x' p].
  - simpl. now rewrite child_del_same.
  - destruct (child x es) as [d|] eqn:Ec.
    + simpl. rewrite child_set_same. now apply IH.
    + simpl. now rewrite Ec.
Qed.

(** *** Placing a subtree *)

Lemma lookup_place_incomparable p q c fs :
  is_prefix p q = false -> is_prefix q p = false ->
  lookup q (place p c fs) = lookup q fs.
Proof.
  revert q fs. induction p as [|x p IH]; intros q fs Hpq Hqp; [discriminate|].
  destruct q as [|y q]; [discriminate|]. destruct fs as [d|es]; [reflexivity|].
  simpl in Hpq, Hqp. destruct (String.eqb x y) eqn:Exy.
  - apply String.eqb_eq in Exy. subst y. rewrite String.eqb_refl in Hqp. simpl in *.
    destruct (child x es) as [d|] eqn:Ec.
    + simpl. rewrite child_set_same. now apply IH.
    + destruct p as [|x' p]; [discriminate|]. simpl. now rewrite Ec.
  - simpl. destruct (child x es) as [d|] eqn:Ec.
    + simpl. now rewrite child_set_other.
    + destruct p as [|x' p]; [|reflexivity]. simpl. now rewrite child_set_other.
Qed.

Lemma lookup_place_keep p q c fs n :
  lookup q fs = Some n -> is_prefix p q = false ->
  exists n', lookup q (place p c fs) = Some n'.
Proof.
  revert q fs n. induction p as [|x p IH]; intros q fs n Hq Hpq; [discriminate|].
  destruct q as [|y q]; [now eexists|]. destruct fs as [d|es]; [discriminate|].
  simpl in Hpq, Hq. destruct (String.eqb x y) eqn:Exy.
  - apply String.eqb_eq in Exy. subst y. simpl in Hpq.
    destruct (child x es) as [d|] eqn:Ec; [|discriminate].
    simpl. rewrite Ec. simpl. rewrite child_set_same. now apply (IH _ _ n).
  - exists n. simpl. destruct (child x es) as [d|] eqn:Ec.
    + simpl. now rewrite child_set_other.
    + destruct p as [|x' p]; simpl; [now rewrite child_set_other|exact Hq].
Qed.

Lemma lookup_place_child p x c fs es :
  lookup p fs = Some (Dir es) ->
  lookup p (place (p ++ [x]) c fs) = Some (Dir (set_child x c es)).
Proof.
  revert fs. induction p as [|y p IH]; intros fs Hp.
  - simpl in Hp. injection Hp as ->. simpl. now destruct (child x es).
  - destruct fs as [d|es0]; [discriminate|]. simpl in Hp.
    destruct (child y es0) as [d|] eqn:Ec; [|discriminate].
    simpl. rewrite Ec. simpl. rewrite child_set_same. now apply IH.
Qed.

Lemma lookup_place_same p x c fs es :
  lookup p fs = Some (Dir es) -> lookup (p ++ [x]) (place (p ++ [x]) c fs) = Some c.
Proof.
  intros Hp. rewrite lookup_app, (lookup_place_child _ _ _ _ _ Hp). simpl.
  now rewrite child_set_same.
Qed.


End TreeFacts.

(* ================================================================== *)
(** * Properties of the library calls *)
(* ================================================================== *)

Section LibraryFacts.

Import FS Py.

Lemma keeps_refl fs : keeps fs fs.
Proof. intros q n Hq. now exists n. Qed.

Lemma keeps_trans fs1 fs2 fs3 : keeps fs1 fs2 -> keeps fs2 fs3 -> keeps fs1 fs3.
Proof. intros H12 H23 q n Hq. destruct (H12 _ _ Hq) as [m Hm]. exact (H23 _ _ Hm). Qed.

Lemma keeps_absent fs fs' p : keeps fs fs' -> lookup p fs' = None -> lookup p fs = None.
Proof.
  intros Hk Hp. destruct (lookup p fs) as [n|] eqn:E; [|reflexivity].
  destruct (Hk _ _ E) as [m Hm]. congruence.
Qed.

(** A path that does not exist is not above a path that does. *)
Lemma absent_not_prefix p q fs n :
  lookup p fs = None -> lookup q fs = Some n -> is_prefix p q = false.
Proof.
  intros Hp Hq. destruct (is_prefix p q) eqn:E; [|reflexivity].
  apply is_prefix_iff in E as [r ->]. rewrite lookup_app, Hp in Hq. discriminate.
Qed.

Lemma keeps_place_fresh p c fs : lookup p fs = None -> keeps fs (place p c fs).
Proof.
  intros Hp q n Hq. eapply lookup_place_keep; [exact Hq|].
  eapply absent_not_prefix; eassumption.
Qed.

(** *** [os.mkdir] and [os.makedirs] *)

Lemma os_mkdir_ok p fs fs' :
  os_mkdir p fs = Ok tt fs' ->
  lookup p fs = None
  /\ (exists es, lookup (removelast p) fs = Some (Dir es))
  /\ fs' = place p (Dir []) fs.
Proof.
  unfold os_mkdir. destruct (lookup p fs); [discriminate|].
  destruct (lookup (removelast p) fs) as [[d|es]|]; try discriminate.
  intros [= <-]. repeat split. now exists es.
Qed.

Lemma os_mkdir_raise p fs e fs' : os_mkdir p fs = Raise e fs' -> fs' = fs.
Proof.
  unfold os_mkdir. destruct (lookup p fs); [now intros [= _ <-]|].
  destruct (lookup (removelast p) fs) as [[d|es]|]; try discriminate;
    now intros [= _ <-].
Qed.

Lemma lookup_place_fresh_dir p fs es :
  lookup p fs = None -> lookup (removelast p) fs = Some (Dir es) ->
  lookup p (place p (Dir []) fs) = Some (Dir []).
Proof.
  intros Hp Hparent. destruct p as [|x p] using rev_ind; [discriminate|].
  rewrite removelast_last in Hparent. exact (lookup_place_same _ _ _ _ _ Hparent).
Qed.

Lemma mkdir_or_exists_ok ok p fs fs' :
  mkdir_or_exists ok p fs = Ok tt fs' ->
  os_mkdir p fs = Ok tt fs' \/ (ok = true /\ isdir p fs = true /\ fs' = fs).
Proof.
  unfold mkdir_or_exists. destruct (os_mkdir p fs) as [[] fs1|e fs1] eqn:E.
  - intros [= <-]. now left.
  - apply os_mkdir_raise in E. subst fs1.
    destruct ok; simpl; [|discriminate].
    destruct (isdir p fs) eqn:Ed; [|discriminate]. intros [= <-]. now right.
Qed.

Lemma mkdir_or_exists_keeps ok p fs : keeps fs (final_fs (mkdir_or_exists ok p fs)).
Proof.
  unfold mkdir_or_exists. destruct (os_mkdir p fs) as [[] fs1|e fs1] eqn:E.
  - apply os_mkdir_ok in E as (Hp & _ & ->). simpl. now apply keeps_place_fresh.
  - apply os_mkdir_raise in E. subst fs1.
    destruct (ok && isdir p fs); apply keeps_refl.
Qed.

Lemma makedirs_rev_keeps ok rname fs : keeps fs (final_fs (makedirs_rev ok rname fs)).
Proof.
  revert fs. induction rname as [|x rhead IH]; intros fs; simpl.
  - apply mkdir_or_exists_keeps.
  - destruct (exists_ (rev rhead) fs); [apply mkdir_or_exists_keeps|].
    specialize (IH fs).
    destruct (makedirs_rev ok rhead fs) as [[] fs1|e fs1]; simpl in IH.
    + eapply keeps_trans; [exact IH|apply mkdir_or_exists_keeps].
    + destruct e; try exact IH.
      eapply keeps_trans; [exact IH|apply mkdir_or_exists_keeps].
Qed.

Lemma os_makedirs_keeps ok p fs : keeps fs (final_fs (os_makedirs ok p fs)).
Proof. apply makedirs_rev_keeps. Qed.

(** The last step of a successful [os.makedirs]. *)
Lemma makedirs_rev_last ok rname fs fs' :
  makedirs_rev ok rname fs = Ok tt fs' ->
  exists fs1, keeps fs fs1 /\ mkdir_or_exists ok (rev rname) fs1 = Ok tt fs'.
Proof.
  destruct rname as [|x rhead]; simpl.
  - intros Hm. exists fs. split; [apply keeps_refl|exact Hm].
  - destruct (exists_ (rev rhead) fs).
    + intros Hm. exists fs. split; [apply keeps_refl|exact Hm].
    + pose proof (makedirs_rev_keeps ok rhead fs) as Hk.
      destruct (makedirs_rev ok rhead fs) as [[] fs1|e fs1]; simpl in Hk.
      * intros Hm. now exists fs1.
      * destruct e; try discriminate. intros Hm. now exists fs1.
Qed.

Lemma os_makedirs_isdir ok p fs fs' :
  os_makedirs ok p fs = Ok tt fs' -> isdir p fs' = true.
Proof.
  unfold os_makedirs. intros Hm.
  apply makedirs_rev_last in Hm as (fs1 & _ & Hm). rewrite rev_involutive in Hm.
  apply mkdir_or_exists_ok in Hm as [Hm|(_ & Hd & ->)]; [|exact Hd].
  apply os_mkdir_ok in Hm as (Hp & [es Hes] & ->). unfold isdir.
  now rewrite (lookup_place_fresh_dir _ _ _ Hp Hes).
Qed.

(** [os.makedirs(p)] succeeds only where nothing existed, and leaves an
    empty directory. *)
Lemma os_makedirs_fresh p fs fs' :
  os_makedirs false p fs = Ok tt fs' ->
  lookup p fs = None /\ lookup p fs' = Some (Dir []).
Proof.
  unfold os_makedirs. intros Hm.
  apply makedirs_rev_last in Hm as (fs1 & Hk & Hm). rewrite rev_involutive in Hm.
  apply mkdir_or_exists_ok in Hm as [Hm|(Hf & _)]; [|discriminate].
  apply os_mkdir_ok in Hm as (Hp & [es Hes] & ->). split.
  - exact (keeps_absent _ _ _ Hk Hp).
  - exact (lookup_place_fresh_dir _ _ _ Hp Hes).
Qed.

(** [os.makedirs(p, exist_ok=True)] on a directory changes nothing. *)
Lemma os_makedirs_existing p fs :
  isdir p fs = true -> os_makedirs true p fs = Ok tt fs.
Proof.
  intros Hd. unfold os_makedirs.
  assert (Hlast : mkdir_or_exists true p fs = Ok tt fs).
  { unfold mkdir_or_exists, os_mkdir. unfold isdir in Hd.
    destruct (lookup p fs) as [[d|es]|] eqn:E; try discriminate.
    simpl. unfold isdir. now rewrite E. }
  destruct p as [|x p _] using rev_ind; [exact Hlast|].
  rewrite rev_app_distr. simpl.
  assert (Hparent : exists_ (rev (rev p)) fs = true).
  { rewrite rev_involutive. apply (exists_prefix _ (p ++ [x])); [apply is_prefix_app|].
    unfold exists_. unfold isdir in Hd. now destruct (lookup (p ++ [x]) fs). }
  rewrite Hparent, rev_involutive. exact Hlast.
Qed.

(** [os.makedirs(p)] below an existing directory is a single [mkdir]. *)
Lemma os_makedirs_one p x fs es :
  lookup p fs = Some (Dir es) -> child x es = None ->
  os_makedirs false (p ++ [x]) fs = Ok tt (place (p ++ [x]) (Dir []) fs).
Proof.
  intros Hp Hx. unfold os_makedirs. rewrite rev_app_distr. simpl.
  unfold exists_. rewrite rev_involutive, Hp.
  unfold mkdir_or_exists, os_mkdir.
  rewrite removelast_last, lookup_app, Hp. simpl. now rewrite Hx.
Qed.

(** *** [shutil.rmtree] *)

Lemma shutil_rmtree_ok p fs fs' :
  shutil_rmtree p fs = Ok tt fs' ->
  isdir p fs = true /\ p <> [] /\ fs' = remove p fs.
Proof.
  unfold shutil_rmtree, isdir. destruct (lookup p fs) as [[d|es]|]; try discriminate.
  destruct p; [discriminate|]. intros [= <-]. repeat split. discriminate.
Qed.

Lemma shutil_rmtree_dir p fs :
  isdir p fs = true -> p <> [] -> shutil_rmtree p fs = Ok tt (remove p fs).
Proof.
  unfold shutil_rmtree, isdir. destruct (lookup p fs) as [[d|es]|]; try discriminate.
  destruct p; [contradiction|reflexivity].
Qed.


End LibraryFacts.

Section MoveFacts.

Import FS Py.





Lemma write_file_ok p data fs fs' :
  write_file p data fs = Ok tt fs' ->
  (lookup p fs = None \/ exists d, lookup p fs = Some (File d))
  /\ fs' = place p (File data) fs.
Proof.
  unfold write_file. destruct (lookup p fs) as [[d|es]|] eqn:E; try discriminate.
  - intros [= <-]. split; [right; now exists d|reflexivity].
  - destruct (lookup (removelast p) fs) as [[d|es]|]; try discriminate.
    intros [= <-]. split; [now left|reflexivity].
Qed.

Lemma write_file_raise p data fs e fs' : write_file p data fs = Raise e fs' -> fs' = fs.
Proof.
  unfold write_file. destruct (lookup p fs) as [[d|es]|]; try discriminate;
    try (now intros [= _ <-]).
  destruct (lookup (removelast p) fs) as [[d|es]|]; try discriminate;
    now intros [= _ <-].
Qed.



(** Moving a directory entry into an empty directory that is neither above
    nor below it. *)
Lemma shutil_move_into_empty parent x dst fs t :
  lookup (parent ++ [x]) fs = Some t ->
  lookup dst fs = Some (Dir []) ->
  is_prefix (parent ++ [x]) dst = false ->
  is_prefix dst (parent ++ [x]) = false ->
  os_path_join dst x = dst ++ [x] ->
  shutil_move (parent ++ [x]) dst fs
  = Ok tt (place (dst ++ [x]) t (remove (parent ++ [x]) fs)).
Proof.
  intros Hsrc Hdst Hsd Hds Hjoin. unfold shutil_move, isdir, samefile. rewrite Hdst.
  assert (Hne : path_eqb (parent ++ [x]) dst = false).
  { destruct (path_eqb (parent ++ [x]) dst) eqn:E; [|reflexivity].
    apply path_eqb_eq in E. rewrite E, is_prefix_refl in Hsd. discriminate. }
  rewrite Hne, andb_false_r, last_last, Hjoin.
  unfold exists_. rewrite lookup_app, Hdst. simpl.
  unfold rename_or_copy, os_rename. rewrite Hsrc.
  assert (Hne' : path_eqb (parent ++ [x]) (dst ++ [x]) = false).
  { destruct (path_eqb (parent ++ [x]) (dst ++ [x])) eqn:E; [|reflexivity].
    apply path_eqb_eq in E. rewrite E, is_prefix_app in Hds. discriminate. }
  assert (Hpre : is_prefix (parent ++ [x]) (dst ++ [x]) = false).
  { destruct (is_prefix (parent ++ [x]) (dst ++ [x])) eqn:E; [|reflexivity].
    apply is_prefix_snoc in E as [E|E].
    - congruence.
    - rewrite E, path_eqb_refl in Hne'. discriminate. }
  rewrite Hne', Hpre, removelast_last, Hdst, lookup_app, Hdst. simpl.
  now destruct t.
Qed.

End MoveFacts.

(* ================================================================== *)
(** * Properties of the program *)
(* ================================================================== *)

Section ProgramFacts.

Context `{L : Libraries}.

Import FS Py.

Lemma path_str_app (p q : path) : path_str (p ++ q) = (path_str p ++ path_str q)%string.
Proof.
  induction p as [|x p IH]; simpl; [reflexivity|].
  now rewrite IH, !append_assoc.
Qed.

Lemma path_str_endswith (parent : path) (name suffix : string) :
  PyStr.endswith name suffix = true ->
  PyStr.endswith (path_str (parent ++ [name])) suffix = true.
Proof.
  intros Hend. rewrite path_str_app. apply endswith_append.
  change (path_str [name]) with (sep ++ (name ++ EmptyString))%string.
  apply endswith_append. now rewrite append_empty_r.
Qed.

Lemma wanted_cases (comp : string) :
  wanted comp = true -> In comp WANTED_COMPONENTS.
Proof.
  unfold wanted. rewrite existsb_exists. intros (c & Hin & Heq).
  apply String.eqb_eq in Heq. now subst.
Qed.

(** A wanted token is one plain path component. *)
Lemma wanted_plain (comp : string) (p : path) :
  wanted comp = true -> os_path_join p comp = p ++ [comp].
Proof.
  intros Hw. apply wanted_cases in Hw. simpl in Hw.
  repeat (destruct Hw as [<-|Hw]; [reflexivity|]). contradiction.
Qed.


Lemma extract_archive_unfold (archive dest : path) (fs : node) :
  _extract_archive archive dest fs
  = match os_makedirs true dest fs with
    | Raise e fs1 => Raise e fs1
    | Ok _ fs1 =>
        if is_zip archive then (zip_extractall archive dest ;; ret true) fs1
        else if is_targz archive then (tar_extractall archive dest ;; ret true) fs1
        else Ok false fs1
    end.
Proof.
  unfold _extract_archive, bind.
  destruct (os_makedirs true dest fs) as [[] fs1|e fs1]; [|reflexivity].
  destruct (is_zip archive); [reflexivity|]. now destruct (is_targz archive).
Qed.

(** The flag [_extract_archive] returns is the outcome of its suffix tests. *)
Lemma extract_archive_flag (archive dest : path) (fs fs1 : node) (r : bool) :
  _extract_archive archive dest fs = Ok r fs1 -> r = recognized archive.
Proof.
  rewrite extract_archive_unfold. unfold recognized, bind, ret.
  destruct (os_makedirs true dest fs) as [[] fs0|e fs0]; [|discriminate].
  destruct (is_zip archive); simpl.
  - destruct (zip_extractall archive dest fs0); [now intros [= <- _]|discriminate].
  - destruct (is_targz archive).
    + destruct (tar_extractall archive dest fs0); [now intros [= <- _]|discriminate].
    + now intros [= <- _].
Qed.

Lemma recognized_iff (archive : path) :
  recognized archive = true
  <-> exists suffix, In suffix archive_suffixes
        /\ PyStr.endswith (PyStr.lower (path_str archive)) suffix = true.
Proof.
  unfold recognized, is_zip, is_targz, archive_suffixes. rewrite !orb_true_iff. split.
  - intros [Hz|[Ht|Ht]]; eexists; (split; [|eassumption]); simpl; auto.
  - intros (suffix & Hin & Hend). simpl in Hin.
    destruct Hin as [<-|[<-|[<-|[]]]]; auto.
Qed.

(** What the locator returns: a directory entry with a name that is not
    hidden and ends in one of the suffixes. *)
Lemma find_archives_shape (root : path) (fs : node) (archive : path) :
  In archive (_find_archives_recursively root fs) ->
  exists suffix rel dir name,
    In suffix archive_suffixes
    /\ In (rel, dir) (_glob2 root fs)
    /\ In name (_glob1 suffix dir)
    /\ archive = root ++ rel ++ [name].
Proof.
  unfold _find_archives_recursively, glob_recursive.
  rewrite in_flat_map. intros (suffix & Hsuf & Hin).
  apply in_flat_map in Hin as ([rel dir] & Hdir & Hin).
  apply in_map_iff in Hin as (name & <- & Hname).
  now exists suffix, rel, dir, name.
Qed.

Lemma glob1_name (suffix : string) (dir : node) (name : string) :
  In name (_glob1 suffix dir)
  <-> exists c, In (name, c) (listing dir)
        /\ _ishidden name = false /\ PyStr.endswith name suffix = true.
Proof.
  unfold _glob1, listing. destruct dir as [d|es].
  - split; [contradiction|]. now intros (c & [] & _).
  - rewrite in_map_iff. split.
    + intros ([n c] & <- & Hin). apply filter_In in Hin as [Hin Hok]. simpl in *.
      apply andb_true_iff in Hok as [Hh He]. apply negb_true_iff in Hh. now exists c.
    + intros (c & Hin & Hh & He). exists (name, c). split; [reflexivity|].
      apply filter_In. split; [exact Hin|]. simpl. now rewrite Hh, He.
Qed.

End ProgramFacts.

(* ================================================================== *)
(** * The Archive Extractor *)
(* ================================================================== *)

Section CaseFacts.

Import PyStr.

Lemma ascii_eqb_nat (a b : ascii) :
  Ascii.eqb a b = Nat.eqb (nat_of_ascii a) (nat_of_ascii b).
Proof.
  destruct (Ascii.eqb_spec a b) as [->|Hne].
  - now rewrite Nat.eqb_refl.
  - symmetry. apply Nat.eqb_neq. intros Heq. apply Hne.
    now rewrite <- (ascii_nat_embedding a), <- (ascii_nat_embedding b), Heq.
Qed.

Lemma lower_ascii_nat (c : ascii) :
  nat_of_ascii (lower_ascii c)
  = if is_upper c then nat_of_ascii c + 32 else nat_of_ascii c.
Proof.
  unfold lower_ascii, is_upper.
  destruct (Nat.leb 65 (nat_of_ascii c) && Nat.leb (nat_of_ascii c) 90) eqn:Hup;
    [|reflexivity].
  apply andb_true_iff in Hup as [_ Hle]. apply Nat.leb_le in Hle.
  apply nat_ascii_embedding. lia.
Qed.

(** Two characters are the same letter exactly when [str.lower] sends
    them to the same character. *)
Lemma same_letter_lower (a b : ascii) :
  same_letter a b = Ascii.eqb (lower_ascii a) (lower_ascii b).
Proof.
  rewrite (ascii_eqb_nat (lower_ascii a)), !lower_ascii_nat.
  unfold same_letter. rewrite ascii_eqb_nat. unfold is_upper.
  destruct (Nat.leb_spec 65 (nat_of_ascii a)), (Nat.leb_spec (nat_of_ascii a) 90),
    (Nat.leb_spec 65 (nat_of_ascii b)), (Nat.leb_spec (nat_of_ascii b) 90);
    cbn [andb orb];
    repeat match goal with
           | |- context [Nat.eqb ?x ?y] => destruct (Nat.eqb_spec x y)
           end;
    cbn [andb orb]; try reflexivity; lia.
Qed.

Lemma eq_ci_lower (s t : string) : eq_ci s t = String.eqb (lower s) (lower t).
Proof.
  revert t. induction s as [|a s IH]; intros [|b t]; try reflexivity.
  cbn [eq_ci lower String.eqb]. now rewrite same_letter_lower, IH.
Qed.

(** The suffix test of the code, on the lower-cased path, is the suffix
    test of the specification, case apart. *)
Lemma endswith_ci_lower (s suffix : string) :
  lower suffix = suffix -> endswith (lower s) suffix = endswith_ci s suffix.
Proof.
  intros Hsuffix. induction s as [|a s IH].
  - cbn [lower endswith_ci]. rewrite endswith_unfold, eq_ci_lower, Hsuffix. reflexivity.
  - cbn [lower endswith_ci]. rewrite endswith_unfold, eq_ci_lower, Hsuffix.
    cbn [lower]. now rewrite IH.
Qed.

End CaseFacts.

Section Extractor.

Context `{L : Libraries}.

Import FS Py.

(** C8, amended.  The extractor first makes sure of the destination
    directory, and raises what [os.makedirs] raises when that fails,
    whatever the suffix.  Once the destination is in place it dispatches
    on the suffix of the path, case apart: [.zip] goes to the zip
    container, and otherwise [.tar.gz] or [.tgz] to the gzip-compressed
    tar container.  For any other path no container is opened, whatever
    the libraries are, and the result is [False]; the file system is then
    as [os.makedirs] left it, unchanged when the destination was a
    directory already. *)
Theorem extract_archive_dispatch (archive dest : path) (fs : node) :
  is_zip archive = endswith_ci (path_str archive) ".zip"
  /\ is_targz archive
     = endswith_ci (path_str archive) ".tar.gz" || endswith_ci (path_str archive) ".tgz"
  /\ (forall e fs1,
        os_makedirs true dest fs = Raise e fs1 ->
        _extract_archive archive dest fs = Raise e fs1)
  /\ (forall fs1,
        os_makedirs true dest fs = Ok tt fs1 ->
        (is_zip archive = true ->
         _extract_archive archive dest fs = (zip_extractall archive dest ;; ret true) fs1)
        /\ (is_zip archive = false -> is_targz archive = true ->
            _extract_archive archive dest fs
            = (tar_extractall archive dest ;; ret true) fs1)
        /\ (recognized archive = false ->
            forall L' : Libraries, @_extract_archive L' archive dest fs = Ok false fs1)
        /\ (isdir dest fs = true -> fs1 = fs)).
Proof.
  split; [|split; [|split]].
  - unfold is_zip. now apply endswith_ci_lower.
  - unfold is_targz. now rewrite !endswith_ci_lower.
  - intros e fs1 Hmk. now rewrite extract_archive_unfold, Hmk.
  - intros fs1 Hmk. repeat split.
    + intros Hz. now rewrite extract_archive_unfold, Hmk, Hz.
    + intros Hz Ht. now rewrite extract_archive_unfold, Hmk, Hz, Ht.
    + intros Hrec L'. unfold recognized in Hrec. apply orb_false_iff in Hrec as [Hz Ht].
      now rewrite extract_archive_unfold, Hmk, Hz, Ht.
    + intros Hd. rewrite (os_makedirs_existing _ _ Hd) in Hmk. now injection Hmk.
Qed.

End Extractor.

Lemma extract_archive_dispatch_witness :
  is_zip ["stage"; "NATIVE.ZIP"] = true
  /\ is_targz ["stage"; "ets.Tar.Gz"] = true
  /\ @_extract_archive Demo.libs (Demo.linux_dir ++ ["toolchains.rar"]) Demo.linux_dir
                       Demo.bundle
     = Ok false Demo.bundle.
Proof.
  split; [|split].
  - rewrite (proj1 (@extract_archive_dispatch Demo.libs ["stage"; "NATIVE.ZIP"] []
                      Demo.bundle)).
    reflexivity.
  - rewrite (proj1 (proj2 (@extract_archive_dispatch Demo.libs ["stage"; "ets.Tar.Gz"] []
                             Demo.bundle))).
    reflexivity.
  - destruct (@extract_archive_dispatch Demo.libs
                (Demo.linux_dir ++ ["toolchains.rar"]) Demo.linux_dir Demo.bundle)
      as (_ & _ & _ & Hplace).
    destruct (Hplace Demo.bundle eq_refl) as (_ & _ & Hother & _).
    apply Hother. reflexivity.
Defined.

(** C8 as stated fails: on a path with none of the three suffixes the
    extractor raises, and returns no [False], when the destination cannot
    be made a directory; here it is a regular file. *)
Lemma extract_unrecognized_raises :
  recognized ["stage"; "notes.txt"] = false
  /\ FS.isfile ["opt"] Demo.blocked = true
  /\ @_extract_archive Demo.libs ["stage"; "notes.txt"] ["opt"] Demo.blocked
     = Raise FileExistsError Demo.blocked.
Proof. repeat split. Qed.


(* ================================================================== *)
(** * Locator and extractor together *)
(* ================================================================== *)

Section LocatorExtractor.

Context `{L : Libraries}.

Import FS Py.

Lemma lower_suffix (suffix : string) :
  In suffix archive_suffixes -> PyStr.lower suffix = suffix.
Proof. simpl. intros [<-|[<-|[<-|[]]]]; reflexivity. Qed.

Lemma find_archives_suffix (root : path) (fs : node) (archive : path) :
  In archive (_find_archives_recursively root fs) ->
  exists suffix, In suffix archive_suffixes
                 /\ PyStr.endswith (path_str archive) suffix = true.
Proof.
  intros Hin.
  apply find_archives_shape in Hin as (suffix & rel & dir & name & Hs & _ & Hname & ->).
  apply glob1_name in Hname as (_ & _ & _ & Hend).
  exists suffix. split; [exact Hs|]. rewrite app_assoc. now apply path_str_endswith.
Qed.

Lemma find_archives_recognized (root : path) (fs : node) (archive : path) :
  In archive (_find_archives_recursively root fs) -> recognized archive = true.
Proof.
  intros Hin. apply recognized_iff.
  destruct (find_archives_suffix _ _ _ Hin) as (suffix & Hs & Hend).
  exists suffix. split; [exact Hs|].
  apply endswith_lower; [now apply lower_suffix|exact Hend].
Qed.

(** C10.  A path the locator produces ends, as it is written, in [.zip],
    [.tar.gz] or [.tgz]; the extractor answers [True] exactly on the paths
    that end in one of the three once lower-cased; so on a path of the
    locator the extractor never answers [False], in whatever state it is
    called, and the loop body of the pipeline is extraction followed by
    relocation: its skip branch is not taken. *)
Theorem locator_output_is_recognized (root : path) (fs : node) (archive : path) :
  In archive (_find_archives_recursively root fs) ->
  (exists suffix, In suffix archive_suffixes
                  /\ PyStr.endswith (path_str archive) suffix = true)
  /\ (forall a dest fs0 r fs1,
        _extract_archive a dest fs0 = Ok r fs1 ->
        (r = true <-> exists suffix, In suffix archive_suffixes
                        /\ PyStr.endswith (PyStr.lower (path_str a)) suffix = true))
  /\ recognized archive = true
  /\ (forall dest fs0 r fs1, _extract_archive archive dest fs0 = Ok r fs1 -> r = true)
  /\ (forall prefix platform_dir fs0,
        process_archive prefix platform_dir archive fs0
        = (_extract_archive archive platform_dir ;;
           relocate prefix (os_path_join platform_dir (_comp_of (path_str archive)))) fs0).
Proof.
  intros Hin.
  pose proof (find_archives_recognized _ _ _ Hin) as Hrec.
  assert (Hflag : forall dest fs0 r fs1,
             _extract_archive archive dest fs0 = Ok r fs1 -> r = true).
  { intros dest fs0 r fs1 He. apply extract_archive_flag in He. congruence. }
  split; [now apply (find_archives_suffix root fs)|].
  split; [|split; [exact Hrec|split; [exact Hflag|]]].
  - intros a dest fs0 r fs1 He. apply extract_archive_flag in He. subst r.
    apply recognized_iff.
  - intros prefix platform_dir fs0. unfold process_archive, relocate, bind.
    destruct (_extract_archive archive platform_dir fs0) as [r fs1|e fs1] eqn:He;
      [|reflexivity].
    now rewrite (Hflag _ _ _ _ He).
Qed.

End LocatorExtractor.

Lemma locator_output_is_recognized_witness :
  recognized Demo.native_archive = true.
Proof.
  destruct (@locator_output_is_recognized Demo.libs Demo.linux_dir Demo.bundle
              Demo.native_archive) as (_ & _ & Hrec & _).
  - vm_compute. left. reflexivity.
  - exact Hrec.
Defined.

(* ================================================================== *)
(** * The Relocation Pipeline *)
(* ================================================================== *)

Section Pipeline.

Context `{L : Libraries}.

Import FS Py.

Lemma sdk_dir_eq (cfg : config) : sdk_dir_of cfg = toolchain_prefix cfg ++ ["ohos-sdk"].
Proof. reflexivity. Qed.

Lemma marker_eq (cfg : config) :
  marker_of cfg = toolchain_prefix cfg ++ [".ohos-sdk-version"].
Proof. reflexivity. Qed.





Lemma lookup_place_or_id (p : path) (c fs : node) :
  place p c fs = fs \/ lookup p (place p c fs) = Some c.
Proof.
  revert fs. induction p as [|x p IH]; intros fs; [now right|].
  destruct fs as [d|es]; [now left|]. simpl.
  destruct (child x es) as [d|] eqn:Ec.
  - destruct (IH d) as [Hid|Hnew].
    + left. now rewrite Hid, (set_child_id _ _ _ Ec).
    + right. simpl. now rewrite child_set_same.
  - destruct p as [|y p]; [|now left].
    right. simpl. now rewrite child_set_same.
Qed.

(** Writing a file changes nothing beside the file and the listings that
    lead to it. *)
Lemma write_file_same_off (p : path) (data : string) (fs : node) :
  same_off p fs (final_fs (write_file p data fs)).
Proof.
  intros q Hq. destruct (write_file p data fs) as [[] fs1|e fs1] eqn:Ew; simpl.
  - apply write_file_ok in Ew as (Hold & ->).
    destruct (is_prefix p q) eqn:Epq.
    + apply is_prefix_iff in Epq as [r ->].
      destruct r as [|x r]; [now rewrite app_nil_r, is_prefix_refl in Hq|].
      assert (Hgone : lookup (p ++ x :: r) fs = None).
      { rewrite lookup_app. destruct Hold as [->|[d ->]]; reflexivity. }
      destruct (lookup_place_or_id p (File data) fs) as [->|Hnew]; [reflexivity|].
      now rewrite Hgone, lookup_app, Hnew.
    + now apply lookup_place_incomparable.
  - apply write_file_raise in Ew. now subst.
Qed.

Lemma prepare_unfold (prefix : path) (fs : node) :
  prepare prefix fs
  = match (if exists_ prefix fs then Ok tt fs else os_makedirs false prefix fs) with
    | Ok _ fs1 =>
        Ok tt (final_fs (write_file (os_path_join prefix ".ohos-sdk-version")
                                    marker_text fs1))
    | Raise e fs1 => Raise e fs1
    end.
Proof.
  unfold prepare, bind, gets, try_pass, ret.
  destruct (exists_ prefix fs); simpl.
  - now destruct (write_file _ _ fs).
  - destruct (os_makedirs false prefix fs) as [[] fs1|e fs1]; [|reflexivity].
    now destruct (write_file _ _ fs1).
Qed.

Lemma start_unfold (cfg : config) (fs : node) :
  start cfg fs
  = match prepare (toolchain_prefix cfg) fs with
    | Raise e fs0 => Raise e fs0
    | Ok _ fs0 =>
        if isdir (sdk_dir_of cfg) fs0 then
          match for_each (process_archive (toolchain_prefix cfg) (platform_dir_of cfg))
                         (wanted_archives
                            (_find_archives_recursively (platform_dir_of cfg) fs0)) fs0
          with
          | Ok _ fs1 => shutil_rmtree_ignore_errors (sdk_dir_of cfg) fs1
          | Raise e fs1 => Raise e fs1
          end
        else Ok tt fs0
    end.
Proof.
  unfold start, prepare, sdk_dir_of, platform_dir_of, sdk_dir_of, bind, gets, ret.
  destruct (exists_ (toolchain_prefix cfg) fs); simpl.
  - destruct (try_pass _ fs) as [[] fs0|e fs0]; [|reflexivity].
    destruct (isdir _ fs0); simpl; [|reflexivity].
    now destruct (for_each _ _ fs0).
  - destruct (os_makedirs false (toolchain_prefix cfg) fs) as [[] fs1|e fs1]; [|reflexivity].
    destruct (try_pass _ fs1) as [[] fs0|e fs0]; [|reflexivity].
    destruct (isdir _ fs0); simpl; [|reflexivity].
    now destruct (for_each _ _ fs0).
Qed.

Lemma process_archive_unfold (prefix platform_dir archive : path) (fs : node) :
  process_archive prefix platform_dir archive fs
  = match _extract_archive archive platform_dir fs with
    | Raise e fs1 => Raise e fs1
    | Ok false fs1 => Ok tt fs1
    | Ok true fs1 =>
        relocate prefix (os_path_join platform_dir (_comp_of (path_str archive))) fs1
    end.
Proof.
  unfold process_archive, relocate, bind.
  destruct (_extract_archive archive platform_dir fs) as [[|] fs1|e fs1]; reflexivity.
Qed.

Lemma relocate_unfold (prefix source_dir : path) (fs : node) :
  relocate prefix source_dir fs
  = let target_dir :=
      os_path_join prefix (py_or (_read_api_version source_dir fs) "unknown") in
    match (if exists_ target_dir fs then shutil_rmtree target_dir fs else Ok tt fs) with
    | Raise e fs1 => Raise e fs1
    | Ok _ fs1 =>
        match os_makedirs false target_dir fs1 with
        | Raise e fs2 => Raise e fs2
        | Ok _ fs2 => shutil_move source_dir target_dir fs2
        end
    end.
Proof.
  unfold relocate, bind, gets, ret. simpl.
  destruct (exists_ _ fs); simpl.
  - destruct (shutil_rmtree _ fs) as [[] fs1|e fs1]; [|reflexivity].
    now destruct (os_makedirs false _ fs1) as [[] fs2|e fs2].
  - now destruct (os_makedirs false _ fs) as [[] fs2|e fs2].
Qed.

End Pipeline.

Section PipelineRuns.

Context `{L : Libraries}.

Import FS Py.







Lemma wanted_archives_wanted (all_archives : list path) :
  Forall (fun a => wanted (_comp_of (path_str a)) = true) (wanted_archives all_archives).
Proof. apply Forall_forall. intros a Ha. now apply filter_In in Ha. Qed.



(** The relocation raises exactly when the removal, the creation or the
    move does. *)
Lemma relocate_raised (prefix source_dir : path) (fs : node) :
  let target_dir :=
    os_path_join prefix (py_or (_read_api_version source_dir fs) "unknown") in
  raised (relocate prefix source_dir fs) = true
  <-> (exists_ target_dir fs = true /\ raised (shutil_rmtree target_dir fs) = true)
      \/ (exists fs1,
            (if exists_ target_dir fs then shutil_rmtree target_dir fs else Ok tt fs)
            = Ok tt fs1
            /\ (raised (os_makedirs false target_dir fs1) = true
                \/ exists fs2,
                     os_makedirs false target_dir fs1 = Ok tt fs2
                     /\ raised (shutil_move source_dir target_dir fs2) = true)).
Proof.
  intros target_dir. rewrite relocate_unfold. fold target_dir. cbv zeta.
  destruct (exists_ target_dir fs).
  - destruct (shutil_rmtree target_dir fs) as [[] fs1|e fs1].
    + destruct (os_makedirs false target_dir fs1) as [[] fs2|e fs2] eqn:Emk; split.
      * intros Hmv. right. exists fs1. split; [reflexivity|]. right. now exists fs2.
      * intros [[_ Hrm]|(fs1' & [= <-] & [Hmk|(fs2' & Hmk & Hmv)])].
        -- discriminate Hrm.
        -- rewrite Emk in Hmk. discriminate Hmk.
        -- rewrite Emk in Hmk. now injection Hmk as <-.
      * intros _. right. exists fs1. split; [reflexivity|]. left. now rewrite Emk.
      * reflexivity.
    + split; [now left|reflexivity].
  - destruct (os_makedirs false target_dir fs) as [[] fs2|e fs2] eqn:Emk; split.
    + intros Hmv. right. exists fs. split; [reflexivity|]. right. now exists fs2.
    + intros [[Hex _]|(fs1' & [= <-] & [Hmk|(fs2' & Hmk & Hmv)])].
      * discriminate Hex.
      * rewrite Emk in Hmk. discriminate Hmk.
      * rewrite Emk in Hmk. now injection Hmk as <-.
    + intros _. right. exists fs. split; [reflexivity|]. left. now rewrite Emk.
    + reflexivity.
Qed.





End PipelineRuns.






(* ================================================================== *)
(** * Relocation of one component *)
(* ================================================================== *)

Section Relocation.

Context `{L : Libraries}.

Import FS Py.

Lemma lookup_remove_parent (p : path) (x : string) (fs : node) (es : list (string * node)) :
  lookup p fs = Some (Dir es) ->
  lookup p (remove (p ++ [x]) fs) = Some (Dir (del_child x es)).
Proof.
  revert fs. induction p as [|y p IH]; intros fs Hp.
  - simpl in Hp. injection Hp as ->. reflexivity.
  - destruct fs as [d|es0]; [discriminate|]. simpl in Hp.
    destruct (child y es0) as [d|] eqn:Ec; [|discriminate].
    assert (Hstep : remove ((y :: p) ++ [x]) (Dir es0)
                    = Dir (set_child y (remove (p ++ [x]) d) es0)).
    { destruct p; simpl; now rewrite Ec. }
    rewrite Hstep. cbn [lookup]. rewrite child_set_same. now apply IH.
Qed.

(** Removing an existing directory and creating it again: what the two
    calls return and what they leave. *)
Lemma clear_target (target : path) (fs1 : node) :
  isdir target fs1 = true -> target <> [] ->
  let fs2 := remove target fs1 in
  let fs3 := place target (Dir []) fs2 in
  shutil_rmtree target fs1 = Ok tt fs2
  /\ lookup target fs2 = None
  /\ os_makedirs false target fs2 = Ok tt fs3
  /\ lookup target fs3 = Some (Dir [])
  /\ (forall q, is_prefix target q = false -> is_prefix q target = false ->
                lookup q fs3 = lookup q fs1)
  /\ (forall r, r <> [] -> lookup (target ++ r) fs3 = None).
Proof.
  intros Hdir Hne fs2 fs3.
  destruct (exists_last Hne) as (tp & tx & Htarget).
  assert (Hparent : exists es, lookup tp fs1 = Some (Dir es)).
  { unfold isdir in Hdir. destruct (lookup target fs1) as [n|] eqn:E; [|discriminate].
    destruct (lookup_removelast _ _ _ E Hne) as [es Hes].
    rewrite Htarget, removelast_last in Hes. now exists es. }
  destruct Hparent as [es Hparent].
  assert (Hparent2 : lookup tp fs2 = Some (Dir (del_child tx es))).
  { unfold fs2. rewrite Htarget. now apply lookup_remove_parent. }
  assert (Hempty : lookup target fs3 = Some (Dir [])).
  { unfold fs3. rewrite Htarget. exact (lookup_place_same _ _ _ _ _ Hparent2). }
  repeat split.
  - now apply shutil_rmtree_dir.
  - pose proof (lookup_remove_below target [] fs1 Hne) as Hg. now rewrite app_nil_r in Hg.
  - unfold fs3. rewrite Htarget.
    apply (os_makedirs_one _ _ _ _ Hparent2). apply child_del_same.
  - exact Hempty.
  - intros q Htq Hqt. unfold fs3, fs2.
    now rewrite lookup_place_incomparable, lookup_remove_incomparable.
  - intros [|x r] Hr; [contradiction|]. now rewrite lookup_app, Hempty.
Qed.

Lemma shutil_move_missing (src dst : path) (fs : node) :
  lookup src fs = None -> raised (shutil_move src dst fs) = true.
Proof.
  intros Hsrc.
  assert (Hcopy : forall real_dst, raised (rename_or_copy src dst real_dst fs) = true).
  { intros real_dst. unfold rename_or_copy, os_rename, isdir, bind, shutil_copy2.
    now rewrite Hsrc. }
  unfold shutil_move, samefile, exists_. rewrite Hsrc. simpl.
  destruct (isdir dst fs); [|apply Hcopy].
  destruct (lookup (os_path_join dst (last src EmptyString)) fs); [reflexivity|apply Hcopy].
Qed.

(** A directory is not moved into an empty directory below it. *)
Lemma shutil_move_into_itself (parent : path) (x : string) (dst : path) (fs : node) :
  lookup dst fs = Some (Dir []) ->
  is_prefix (parent ++ [x]) dst = true -> parent ++ [x] <> dst ->
  os_path_join dst x = dst ++ [x] ->
  raised (shutil_move (parent ++ [x]) dst fs) = true.
Proof.
  intros Hdst Hpre Hne Hjoin.
  assert (Heq : path_eqb (parent ++ [x]) dst = false).
  { destruct (path_eqb (parent ++ [x]) dst) eqn:E; [|reflexivity].
    now apply path_eqb_eq in E. }
  pose proof Hpre as Hsplit. apply is_prefix_iff in Hsplit as [r Hr].
  destruct r as [|y r]; [rewrite app_nil_r in Hr; now symmetry in Hr|].
  assert (Hsrc : exists es, lookup (parent ++ [x]) fs = Some (Dir es)).
  { rewrite Hr, lookup_app in Hdst.
    destruct (lookup (parent ++ [x]) fs) as [[d|es]|]; try discriminate. now exists es. }
  destruct Hsrc as [es Hsrc].
  unfold shutil_move, isdir, samefile. rewrite Hdst, Heq, andb_false_r, last_last, Hjoin.
  unfold exists_. rewrite (lookup_app dst [x]), Hdst. simpl.
  unfold rename_or_copy, os_rename, isdir. rewrite Hsrc.
  assert (Hpre' : is_prefix (parent ++ [x]) (dst ++ [x]) = true).
  { eapply is_prefix_trans; [exact Hpre|apply is_prefix_app]. }
  assert (Heq' : path_eqb (parent ++ [x]) (dst ++ [x]) = false).
  { destruct (path_eqb (parent ++ [x]) (dst ++ [x])) eqn:E; [|reflexivity].
    apply path_eqb_eq in E. rewrite E, lookup_app, Hdst in Hsrc. discriminate. }
  now rewrite Heq', Hpre', Hpre.
Qed.

(** A move into an empty directory that returns has moved the source, and
    the source was neither above nor below the directory. *)
Lemma shutil_move_into_empty_ok (parent : path) (x : string) (dst : path) (fs fs' : node) :
  lookup dst fs = Some (Dir []) ->
  parent ++ [x] <> dst ->
  os_path_join dst x = dst ++ [x] ->
  shutil_move (parent ++ [x]) dst fs = Ok tt fs' ->
  exists t,
    lookup (parent ++ [x]) fs = Some t
    /\ is_prefix (parent ++ [x]) dst = false
    /\ is_prefix dst (parent ++ [x]) = false
    /\ fs' = place (dst ++ [x]) t (remove (parent ++ [x]) fs).
Proof.
  intros Hdst Hne Hjoin Hmove.
  destruct (lookup (parent ++ [x]) fs) as [t|] eqn:Hsrc.
  2:{ pose proof (shutil_move_missing _ dst _ Hsrc) as Hr. now rewrite Hmove in Hr. }
  assert (Hds : is_prefix dst (parent ++ [x]) = false).
  { destruct (is_prefix dst (parent ++ [x])) eqn:E; [|reflexivity].
    apply is_prefix_iff in E as [r Hr].
    destruct r as [|y r]; [rewrite app_nil_r in Hr; contradiction|].
    rewrite Hr, lookup_app, Hdst in Hsrc. discriminate. }
  assert (Hsd : is_prefix (parent ++ [x]) dst = false).
  { destruct (is_prefix (parent ++ [x]) dst) eqn:E; [|reflexivity].
    pose proof (shutil_move_into_itself _ _ _ _ Hdst E Hne Hjoin) as Hr.
    now rewrite Hmove in Hr. }
  exists t. repeat split; try assumption.
  rewrite (shutil_move_into_empty _ _ _ _ _ Hsrc Hdst Hsd Hds Hjoin) in Hmove.
  now injection Hmove.
Qed.

(** What a move into the cleared target leaves. *)
Lemma moved_into_target (source_dir target_dir : path) (comp : string) (t fs3 : node) :
  lookup target_dir fs3 = Some (Dir []) ->
  source_dir <> [] ->
  is_prefix target_dir source_dir = false ->
  is_prefix source_dir target_dir = false ->
  let fs' := place (target_dir ++ [comp]) t (remove source_dir fs3) in
  lookup target_dir fs' = Some (Dir [(comp, t)]) /\ lookup source_dir fs' = None.
Proof.
  intros Hempty Hne Hts Hst fs'. split.
  - unfold fs'.
    apply (lookup_place_child target_dir comp t (remove source_dir fs3) []).
    now rewrite lookup_remove_incomparable.
  - unfold fs'. rewrite lookup_place_incomparable.
    + pose proof (lookup_remove_below source_dir [] fs3 Hne) as Hg.
      now rewrite app_nil_r in Hg.
    + destruct (is_prefix (target_dir ++ [comp]) source_dir) eqn:E; [|reflexivity].
      rewrite (is_prefix_trans _ _ _ (is_prefix_app target_dir [comp]) E) in Hts.
      discriminate.
    + destruct (is_prefix source_dir (target_dir ++ [comp])) eqn:E; [|reflexivity].
      apply is_prefix_snoc in E as [E|E]; [congruence|].
      rewrite E, is_prefix_app in Hts. discriminate.
Qed.


End Relocation.


(** C1 as stated fails: the metadata of the component names the working
    directory itself as the version key.  The directory
    [<prefix>/<ApiVersion>] exists after the extraction, the iteration
    completes, and no component is at [<prefix>/<ApiVersion>/native]: the
    removal deleted the component and the move had nothing to move. *)
Lemma relocation_loses_aliased_component :
  exists fs1 fs',
    @_extract_archive Demo.libs Demo.native_archive Demo.linux_dir Demo.alias_bundle
    = Ok true fs1
    /\ @_read_api_version Demo.libs (Demo.linux_dir ++ ["native"]) fs1
       = Some "ohos-sdk/linux/native"
    /\ FS.isdir (os_path_join ["opt"; "sdk"] "ohos-sdk/linux/native") fs1 = true
    /\ @process_archive Demo.libs ["opt"; "sdk"] Demo.linux_dir Demo.native_archive
                        Demo.alias_bundle = Ok tt fs'
    /\ FS.lookup (os_path_join ["opt"; "sdk"] "ohos-sdk/linux/native" ++ ["native"]) fs'
       = None
    /\ FS.lookup (os_path_join ["opt"; "sdk"] "ohos-sdk/linux/native") fs' = Some (Dir []).
Proof. do 2 eexists. vm_compute. repeat split. Qed.

(* ================================================================== *)
(** * The Archive Locator *)
(* ================================================================== *)

Section TreeInduction.

Variable P : node -> Prop.
Hypothesis P_file : forall data, P (File data).
Hypothesis P_dir : forall es, Forall (fun e => P (snd e)) es -> P (Dir es).

(** Induction on a tree, with the property available for every entry of a
    directory. *)
Lemma node_tree_ind : forall n, P n.
Proof.
  fix IH 1. intros [data|es]; [apply P_file|].
  apply P_dir. induction es as [|[x c] es IHes]; constructor; [apply IH|exact IHes].
Qed.

End TreeInduction.

Section Well_formed.

Import FS.








End Well_formed.

Section Walk.

Import FS Py.








End Walk.

Section ListFacts.

Context {A B : Type}.



End ListFacts.

Section SuffixFacts.

Import PyStr.

Lemma length_append (a b : string) :
  String.length (a ++ b) = String.length a + String.length b.
Proof. induction a as [|c a IH]; simpl; [reflexivity|now rewrite IH]. Qed.

(** Two suffixes of a string that have the same length are equal. *)
Lemma suffix_same_length (s a b : string) :
  endswith s a = true -> endswith s b = true ->
  String.length a = String.length b -> a = b.
Proof.
  rewrite !endswith_iff. intros [p Hp] [q Hq] Hlen. subst s.
  revert q Hq. induction p as [|c p IH]; intros q Hq.
  - destruct q as [|d q]; [exact Hq|].
    simpl in Hq. subst a. simpl in Hlen. rewrite length_append in Hlen. lia.
  - destruct q as [|d q].
    + simpl in Hq. subst b. simpl in Hlen. rewrite length_append in Hlen. lia.
    + simpl in Hq. injection Hq as _ Hq. now apply (IH q).
Qed.

Lemma endswith_tail (s a b : string) :
  endswith s (a ++ b) = true -> endswith s b = true.
Proof.
  rewrite !endswith_iff. intros [p ->]. exists (p ++ a)%string.
  now rewrite append_assoc.
Qed.


End SuffixFacts.

Section Locator.

Context `{L : Libraries}.

Import FS Py.











End Locator.



(* ================================================================== *)
(** * The Metadata Reader *)
(* ================================================================== *)

Section MetadataReader.

Context `{L : Libraries}.

Import FS Py.

Lemma read_api_version_located (root : path) (fs : node) :
  _read_api_version root fs
  = match located_metadata root fs with
    | Some pkg => version_of_file pkg fs
    | None => None
    end.
Proof.
  unfold _read_api_version, located_metadata.
  destruct (isfile (os_path_join root metadata_name) fs); simpl; [reflexivity|].
  now destruct (glob_one_level root metadata_name fs).
Qed.

Lemma candidate_of_entry (root : path) (e : string * node) :
  match snd e with
  | Dir sub =>
      if _ishidden (fst e) then []
      else match child metadata_name sub with
           | Some _ => [root ++ [fst e; metadata_name]]
           | None => []
           end
  | File _ => []
  end
  = if qualifies e then [root ++ [fst e; metadata_name]] else [].
Proof.
  unfold qualifies. destruct (snd e) as [d|sub]; [reflexivity|].
  destruct (_ishidden (fst e)); simpl; [reflexivity|].
  now destruct (child metadata_name sub).
Qed.



Lemma py_get_dict (d : list (string * pyval)) (key : string) :
  py_get (PyDict d) key
  = Some (match assoc key d with Some v => v | None => PyNone end).
Proof. reflexivity. Qed.


End MetadataReader.




(** C6 as stated fails: the metadata file is valid JSON and has the
    [apiVersion] field, with the value [null]; the reader returns no
    version where the field coerced to a string would be [str(None)]. *)
Lemma metadata_null_version :
  @located_metadata ["comp"] Demo.null_version = Some ["comp"; "oh-uni-package.json"]
  /\ @load_json Demo.libs ["comp"; "oh-uni-package.json"] Demo.null_version
     = Some (PyDict [("apiVersion", PyNone)])
  /\ assoc "apiVersion" [("apiVersion", PyNone)] = Some PyNone
  /\ @_read_api_version Demo.libs ["comp"] Demo.null_version = None
  /\ @py_str Demo.libs PyNone = "None".
Proof. repeat split. Qed.

(* ================================================================== *)
(** * The scenarios of the specification, run on the model *)
(* ================================================================== *)

(** End to end: the whitelisted archive lands under its version, the
    earlier contents of that version are replaced, the other archive
    leaves no trace and the staging directory is gone. *)
Example end_to_end_scenario :
  @start Demo.libs Demo.cfg Demo.scenario
  = Ok tt (Dir [("opt", Dir [("sdk", Dir [
      (".ohos-sdk-version", File marker_text);
      ("12", Dir [("native", Dir [("oh-uni-package.json", File "apiVersion=12");
                                  ("libace.so", File "ELF")])])])])]).
Proof. reflexivity. Qed.

(** Only the whitelisted archive of the scenario reaches the extractor. *)
Example scenario_filter :
  wanted_archives (_find_archives_recursively Demo.linux_dir Demo.scenario)
  = [Demo.native_archive].
Proof. reflexivity. Qed.

(** An archive that unpacks no working directory: the version resolves to
    [unknown], the target is created and the move raises. *)
Example missing_working_directory :
  raised (@process_archive Demo.libs ["opt"; "sdk"] Demo.linux_dir
            (Demo.linux_dir ++ ["random-extra.zip"]) Demo.scenario) = true
  /\ FS.lookup ["opt"; "sdk"; "unknown"]
               (final_fs (@process_archive Demo.libs ["opt"; "sdk"] Demo.linux_dir
                            (Demo.linux_dir ++ ["random-extra.zip"]) Demo.scenario))
     = Some (Dir []).
Proof. split; reflexivity. Qed.

Example suffix_is_case_insensitive :
  is_zip ["stage"; "NATIVE.ZIP"] = true
  /\ is_targz ["stage"; "ets.Tar.Gz"] = true
  /\ is_targz ["stage"; "js.TGZ"] = true
  /\ recognized ["stage"; "toolchains.rar"] = false.
Proof. repeat split. Qed.

Example platform_directories :
  _platform_dir_name "linux" = "linux"
  /\ _platform_dir_name "windows" = "windows"
  /\ _platform_dir_name "darwin" = "mac"
  /\ _platform_dir_name "android" = "android".
Proof. repeat split. Qed.

(* ================================================================== *)
(** * Further properties: constructor, platform names, tokens *)
(* ================================================================== *)

(** X1.  For every platform identifier the constructor finds a checksum:
    the file name it derives is a key of the checksum table and is the
    base name of the URL it fetches, so the table lookup raises no
    [KeyError].  The fetch entry it appends carries that checksum, and the
    directory it has the bundle extracted into is the staging directory
    [start] looks for. *)
Theorem init_finds_checksum
        (inherited_fetch : list (string * option string * string))
        (inherited_steps : list (string * bool * path)) (cfg : config) :
  let fname := _filename_for_platform (platform cfg) in
  let url := sdk_url SDK_VERSION fname in
  basename url = fname
  /\ exists checksum,
       dict_item SDK_CHECKSUMS fname = Some checksum
       /\ __init__ inherited_fetch inherited_steps cfg
          = Some {| bs_prefix := toolchain_prefix cfg;
                    fetch_urls := inherited_fetch ++ [(url, None, checksum)];
                    extract_steps := inherited_steps ++ [(url, true, sdk_dir_of cfg)] |}.
Proof.
  unfold __init__, _filename_for_platform.
  destruct (String.eqb (platform cfg) "darwin"); cbv zeta;
    (split; [reflexivity|]); eexists; split; reflexivity.
Qed.

(** X2.  The platform directory name is stable under a second
    translation, it is never [darwin], and the platform for which the mac
    bundle is fetched is the one whose directory is [mac]; every other
    identifier than the three known ones is its own directory name. *)
Theorem platform_dir_name_stable (platform : string) :
  _platform_dir_name (_platform_dir_name platform) = _platform_dir_name platform
  /\ _platform_dir_name platform <> "darwin"
  /\ (_filename_for_platform platform = "ohos-sdk-mac-public.tar.gz"
      <-> platform = "darwin")
  /\ (platform = "darwin" -> _platform_dir_name platform = "mac")
  /\ (platform <> "linux" -> platform <> "windows" -> platform <> "darwin" ->
      _platform_dir_name platform = platform).
Proof.
  unfold _platform_dir_name, _filename_for_platform.
  destruct (String.eqb_spec platform "linux") as [->|Hl].
  { repeat split; try discriminate; try reflexivity; intros; congruence. }
  destruct (String.eqb_spec platform "windows") as [->|Hw].
  { repeat split; try discriminate; try reflexivity; intros; congruence. }
  destruct (String.eqb_spec platform "darwin") as [->|Hd].
  { repeat split; try discriminate; try reflexivity; intros; congruence. }
  apply String.eqb_neq in Hl as El. apply String.eqb_neq in Hw as Ew.
  apply String.eqb_neq in Hd as Ed. rewrite El, Ew, Ed.
  split; [reflexivity|]. split; [exact Hd|]. split; [|split].
  - split; [discriminate|]. intros E. contradiction.
  - intros E. contradiction.
  - reflexivity.
Qed.

Section TokenFacts.

Import PyStr.

Lemma occurs_before_first (c : ascii) (stop : ascii -> bool) (s : string) :
  occurs c s = false -> occurs c (before_first stop s) = false.
Proof.
  induction s as [|a s IH]; simpl; [reflexivity|].
  intros Hocc. apply orb_false_iff in Hocc as [Ha Hs].
  destruct (stop a); [reflexivity|]. simpl. now rewrite Ha, IH.
Qed.

Lemma before_first_stops (c : ascii) (stop : ascii -> bool) (s : string) :
  stop c = true -> occurs c (before_first stop s) = false.
Proof.
  intros Hc. induction s as [|a s IH]; simpl; [reflexivity|].
  destruct (stop a) eqn:Ha; [reflexivity|]. simpl. rewrite IH, orb_false_r.
  destruct (Ascii.eqb a c) eqn:E; [|reflexivity].
  apply Ascii.eqb_eq in E. congruence.
Qed.

Lemma split_pieces_clean (c : ascii) (s w : string) :
  In w (split c s) -> occurs c w = false.
Proof.
  revert w. induction s as [|a s IH]; simpl; intros w Hin.
  - destruct Hin as [<-|[]]. reflexivity.
  - destruct (Ascii.eqb a c) eqn:E.
    + destruct Hin as [<-|Hin]; [reflexivity|now apply IH].
    + destruct (split c s) as [|v vs].
      * destruct Hin as [<-|[]]. simpl. now rewrite E.
      * destruct Hin as [<-|Hin].
        -- simpl. rewrite E. apply IH. now left.
        -- apply IH. now right.
Qed.

Lemma split_nonempty (c : ascii) (s : string) : split c s <> [].
Proof.
  destruct s as [|a s]; simpl; [discriminate|].
  destruct (Ascii.eqb a c); [discriminate|]. now destruct (split c s).
Qed.

Lemma last_in {A} (l : list A) (d : A) : l <> [] -> In (last l d) l.
Proof.
  induction l as [|a l IH]; [contradiction|]. intros _.
  destruct l as [|b l]; [now left|]. right. apply IH. discriminate.
Qed.

Lemma basename_clean (p : string) : occurs "/" (basename p) = false.
Proof.
  unfold basename. apply (split_pieces_clean "/" p).
  apply last_in. apply split_nonempty.
Qed.

(** X3.  On every path string the classifier returns a token that holds
    none of the characters [/], [.], [-] and [_]; classifying the token
    gives the token back; and joined to a directory the token names that
    directory itself when it is empty and an entry directly inside it
    otherwise. *)
Theorem comp_of_token_is_plain (p : string) (dir : path) :
  occurs "/" (_comp_of p) = false
  /\ occurs "." (_comp_of p) = false
  /\ occurs "-" (_comp_of p) = false
  /\ occurs "_" (_comp_of p) = false
  /\ _comp_of (_comp_of p) = _comp_of p
  /\ os_path_join dir (_comp_of p)
     = if String.eqb (_comp_of p) EmptyString then dir else dir ++ [_comp_of p].
Proof.
  assert (Hslash : occurs "/" (_comp_of p) = false).
  { rewrite comp_of_basename. unfold classify_spec.
    apply occurs_before_first, occurs_before_first, basename_clean. }
  assert (Hdot : occurs "." (_comp_of p) = false).
  { rewrite comp_of_basename. unfold classify_spec.
    apply occurs_before_first. now apply before_first_stops. }
  assert (Hdash : occurs "-" (_comp_of p) = false).
  { rewrite comp_of_basename. unfold classify_spec. now apply before_first_stops. }
  assert (Hunder : occurs "_" (_comp_of p) = false).
  { rewrite comp_of_basename. unfold classify_spec. now apply before_first_stops. }
  repeat split; try assumption.
  - rewrite (comp_of_basename (_comp_of p)), (basename_plain _ Hslash).
    unfold classify_spec.
    rewrite (before_first_clean is_dot).
    + apply before_first_clean. intros c Hc. unfold is_dash_or_underscore in Hc.
      apply orb_true_iff in Hc as [Hc|Hc]; apply Ascii.eqb_eq in Hc; now subst c.
    + intros c Hc. apply Ascii.eqb_eq in Hc. now subst c.
  - unfold os_path_join, components. rewrite (split_absent _ _ Hslash).
    destruct (_comp_of p) as [|a t] eqn:Et; [simpl; now rewrite app_nil_r|].
    simpl in Hslash. apply orb_false_iff in Hslash as [Ha _].
    cbn [startswith]. rewrite Ha.
    assert (Hplain : plain_component (String a t) = true).
    { unfold plain_component. simpl in Hdot. apply orb_false_iff in Hdot as [Hd _].
      cbn. rewrite Hd. reflexivity. }
    cbn [filter]. now rewrite Hplain.
Qed.

(** X4.  No path passes both suffix tests of the extractor: the order in
    which it tries the zip and the tar container decides nothing. *)
Theorem suffix_tests_exclusive (archive : path) :
  is_zip archive = true -> is_targz archive = false.
Proof.
  unfold is_zip, is_targz. intros Hz. apply orb_false_iff. split.
  - destruct (endswith (lower (path_str archive)) ".tar.gz") eqn:E; [|reflexivity].
    apply (endswith_tail _ ".ta" "r.gz") in E.
    pose proof (suffix_same_length _ _ _ Hz E eq_refl). discriminate.
  - destruct (endswith (lower (path_str archive)) ".tgz") eqn:E; [|reflexivity].
    pose proof (suffix_same_length _ _ _ Hz E eq_refl). discriminate.
Qed.

End TokenFacts.

Lemma suffix_tests_exclusive_witness : is_targz ["stage"; "native.ZIP"] = false.
Proof. apply (suffix_tests_exclusive ["stage"; "native.ZIP"]). reflexivity. Defined.

(* ================================================================== *)
(** * Further properties: what the calls leave untouched *)
(* ================================================================== *)

Section Frames.

Import FS Py.

Lemma same_off_refl (m : path) (fs : node) : same_off m fs fs.
Proof. now intros q _. Qed.

Lemma same_off_trans (m : path) (fs1 fs2 fs3 : node) :
  same_off m fs1 fs2 -> same_off m fs2 fs3 -> same_off m fs1 fs3.
Proof. intros H12 H23 q Hq. now rewrite (H23 q Hq), (H12 q Hq). Qed.

Lemma same_off_below (m m' : path) (fs fs' : node) :
  is_prefix m m' = true -> same_off m fs fs' -> same_off m' fs fs'.
Proof.
  intros Hmm Hoff q Hq. apply Hoff.
  destruct (is_prefix q m) eqn:E; [|reflexivity].
  now rewrite (is_prefix_trans _ _ _ E Hmm) in Hq.
Qed.


Lemma mkdir_or_exists_same_off (ok : bool) (p : path) (fs : node) :
  same_off p fs (final_fs (mkdir_or_exists ok p fs)).
Proof.
  unfold mkdir_or_exists. destruct (os_mkdir p fs) as [[] fs1|e fs1] eqn:E.
  - apply os_mkdir_ok in E as (Hp & [es Hes] & ->). simpl. intros q Hq.
    destruct (is_prefix p q) eqn:Epq; [|now apply lookup_place_incomparable].
    apply is_prefix_iff in Epq as [r ->].
    destruct r as [|x r]; [now rewrite app_nil_r, is_prefix_refl in Hq|].
    now rewrite !lookup_app, Hp, (lookup_place_fresh_dir _ _ _ Hp Hes).
  - apply os_mkdir_raise in E. subst fs1.
    destruct (ok && isdir p fs); apply same_off_refl.
Qed.

Lemma makedirs_rev_same_off (ok : bool) (rname : list string) (fs : node) :
  same_off (rev rname) fs (final_fs (makedirs_rev ok rname fs)).
Proof.
  revert fs. induction rname as [|x rhead IH]; intros fs.
  - apply mkdir_or_exists_same_off.
  - cbn [makedirs_rev].
    destruct (exists_ (rev rhead) fs); [apply mkdir_or_exists_same_off|].
    assert (Hhead : same_off (rev (x :: rhead)) fs (final_fs (makedirs_rev ok rhead fs))).
    { apply (same_off_below (rev rhead)); [simpl; apply is_prefix_app|apply IH]. }
    destruct (makedirs_rev ok rhead fs) as [[] fs1|e fs1]; simpl in Hhead.
    + eapply same_off_trans; [exact Hhead|apply mkdir_or_exists_same_off].
    + destruct e; try exact Hhead.
      eapply same_off_trans; [exact Hhead|apply mkdir_or_exists_same_off].
Qed.

(** [os.makedirs] changes nothing beside the directory it is asked for and
    the listings that lead to it. *)
Lemma os_makedirs_same_off (ok : bool) (p : path) (fs : node) :
  same_off p fs (final_fs (os_makedirs ok p fs)).
Proof.
  unfold os_makedirs. rewrite <- (rev_involutive p) at 1. apply makedirs_rev_same_off.
Qed.

Lemma shutil_move_missing_state (src dst : path) (fs : node) :
  lookup src fs = None -> exists e, shutil_move src dst fs = Raise e fs.
Proof.
  intros Hsrc.
  assert (Hcopy : forall real_dst, exists e, rename_or_copy src dst real_dst fs = Raise e fs).
  { intros real_dst. unfold rename_or_copy, os_rename, isdir, bind, shutil_copy2.
    rewrite Hsrc. now eexists. }
  unfold shutil_move, samefile, exists_. rewrite Hsrc. simpl.
  destruct (isdir dst fs); [|apply Hcopy].
  destruct (lookup (os_path_join dst (last src EmptyString)) fs);
    [now eexists|apply Hcopy].
Qed.

Lemma branches_incomparable (p : path) (x y : string) (r : path) :
  String.eqb x y = false ->
  is_prefix (p ++ x :: r) (p ++ [y]) = false
  /\ is_prefix (p ++ [y]) (p ++ x :: r) = false.
Proof.
  intros Hxy. induction p as [|z p IH]; simpl.
  - rewrite Hxy, (String.eqb_sym y x), Hxy. now split.
  - now rewrite String.eqb_refl.
Qed.

End Frames.

Section MoreReader.

Context `{L : Libraries}.

Import FS Py.

Lemma metadata_path (root : path) :
  os_path_join root metadata_name = root ++ [metadata_name].
Proof. reflexivity. Qed.

Lemma read_api_version_absent (root : path) (fs : node) :
  lookup root fs = None -> _read_api_version root fs = None.
Proof.
  intros Hroot. unfold _read_api_version, isfile, glob_one_level.
  now rewrite metadata_path, lookup_app, Hroot.
Qed.



(** X6.  The version the pipeline resolves is never the empty string: a
    component whose metadata holds an empty [apiVersion] is relocated like
    one without metadata, to [<prefix>/unknown]. *)
Theorem empty_version_is_unknown (prefix root : path) (fs : node) :
  py_or (_read_api_version root fs) "unknown" <> EmptyString
  /\ (_read_api_version root fs = Some EmptyString ->
      relocate prefix root fs = relocate_unknown prefix root fs).
Proof.
  split.
  - destruct (_read_api_version root fs) as [[|c s]|]; discriminate.
  - intros Hempty. unfold relocate, relocate_unknown, bind, gets. now rewrite Hempty.
Qed.

End MoreReader.


(* ================================================================== *)
(** * Further properties: extraction and relocation *)
(* ================================================================== *)

Section MoreRelocation.

Context `{L : Libraries}.

Import FS Py.

(** X7.  Called on an archive it does not recognize, the extractor has
    still made sure of the destination directory before it answers
    [False]: the destination is a directory afterwards, every path that
    existed exists, and nothing has changed beside the destination and the
    listings that lead to it. *)
Theorem unrecognized_archive_leaves_destination
        (archive dest : path) (fs fs1 : node) (r : bool) :
  recognized archive = false ->
  _extract_archive archive dest fs = Ok r fs1 ->
  r = false
  /\ isdir dest fs1 = true
  /\ keeps fs fs1
  /\ same_off dest fs fs1.
Proof.
  intros Hrec He. pose proof (extract_archive_flag _ _ _ _ _ He) as Hr.
  rewrite Hrec in Hr. subst r. split; [reflexivity|].
  rewrite extract_archive_unfold in He.
  unfold recognized in Hrec. apply orb_false_iff in Hrec as [Hz Ht].
  rewrite Hz, Ht in He.
  pose proof (os_makedirs_keeps true dest fs) as Hk.
  pose proof (os_makedirs_same_off true dest fs) as Hoff.
  destruct (os_makedirs true dest fs) as [[] fs2|e fs2] eqn:Emk; [|discriminate].
  injection He as <-. simpl in Hk, Hoff. repeat split; try assumption.
  eapply os_makedirs_isdir; eauto.
Qed.


End MoreRelocation.

Lemma unrecognized_archive_leaves_destination_witness :
  FS.isdir Demo.linux_dir Demo.bundle = true.
Proof.
  apply (@unrecognized_archive_leaves_destination Demo.libs
           (Demo.linux_dir ++ ["toolchains.rar"]) Demo.linux_dir
           Demo.bundle Demo.bundle false eq_refl eq_refl).
Defined.


(* ================================================================== *)
(** * Further properties: the run as a whole *)
(* ================================================================== *)

Section LibrariesCompared.

Import FS Py.

Variables L1 L2 : Libraries.

Hypothesis Hagree : agree_on_wanted L1 L2.

Lemma read_api_version_agree (root : path) (fs : node) :
  @_read_api_version L1 root fs = @_read_api_version L2 root fs.
Proof.
  destruct Hagree as (Hdec & Hjson & Hrepr & _).
  assert (Hload : forall pkg, @load_json L1 pkg fs = @load_json L2 pkg fs).
  { intros pkg. unfold load_json. destruct (lookup pkg fs) as [[data|es]|]; try reflexivity.
    rewrite Hdec. destruct (utf8_decode data); [apply Hjson|reflexivity]. }
  assert (Hver : forall pkg, @version_of_file L1 pkg fs = @version_of_file L2 pkg fs).
  { intros pkg. unfold version_of_file. rewrite Hload.
    destruct (load_json pkg fs) as [data|]; [|reflexivity].
    destruct (py_get data "apiVersion") as [v|]; [|reflexivity].
    unfold py_str. destruct v; try reflexivity; now rewrite Hrepr. }
  unfold _read_api_version. cbv zeta.
  destruct (negb (isfile _ fs)); [|apply Hver].
  destruct (glob_one_level root metadata_name fs); [reflexivity|apply Hver].
Qed.

Lemma relocate_agree (prefix source_dir : path) (fs : node) :
  @relocate L1 prefix source_dir fs = @relocate L2 prefix source_dir fs.
Proof. now rewrite !relocate_unfold, read_api_version_agree. Qed.

Lemma extract_archive_agree (archive dest : path) (fs : node) :
  wanted (_comp_of (path_str archive)) = true ->
  @_extract_archive L1 archive dest fs = @_extract_archive L2 archive dest fs.
Proof.
  intros Hw. destruct Hagree as (_ & _ & _ & Hzip & Htar).
  rewrite !extract_archive_unfold.
  destruct (os_makedirs true dest fs) as [[] fs1|e fs1]; [|reflexivity].
  unfold bind. now rewrite (Hzip _ dest fs1 Hw), (Htar _ dest fs1 Hw).
Qed.

Lemma process_archive_agree (prefix platform_dir archive : path) (fs : node) :
  wanted (_comp_of (path_str archive)) = true ->
  @process_archive L1 prefix platform_dir archive fs
  = @process_archive L2 prefix platform_dir archive fs.
Proof.
  intros Hw. rewrite !process_archive_unfold, (extract_archive_agree _ _ _ Hw).
  destruct (_extract_archive archive platform_dir fs) as [[|] fs1|e fs1];
    try reflexivity.
  apply relocate_agree.
Qed.

End LibrariesCompared.

Lemma for_each_ext {A} (f g : A -> M unit) (l : list A) :
  Forall (fun a => forall fs, f a fs = g a fs) l ->
  forall fs, for_each f l fs = for_each g l fs.
Proof.
  induction 1 as [|a l Ha _ IH]; intros fs; simpl; [reflexivity|].
  unfold bind. rewrite Ha. destruct (g a fs) as [[] fs1|e fs1]; [apply IH|reflexivity].
Qed.

(** X10.  Archives whose token is outside the whitelist never reach the
    container libraries: two library environments that read metadata the
    same way and unpack the wanted archives the same way give the same
    run, whatever they would do with any other archive. *)
Theorem unwanted_archives_are_never_opened (L1 L2 : Libraries) :
  agree_on_wanted L1 L2 ->
  forall cfg fs, @start L1 cfg fs = @start L2 cfg fs.
Proof.
  intros Hagree cfg fs. rewrite !start_unfold.
  destruct (prepare (toolchain_prefix cfg) fs) as [[] fs0|e fs0]; [|reflexivity].
  destruct (FS.isdir (sdk_dir_of cfg) fs0); [|reflexivity].
  rewrite (for_each_ext (@process_archive L1 (toolchain_prefix cfg) (platform_dir_of cfg))
                        (@process_archive L2 (toolchain_prefix cfg) (platform_dir_of cfg))).
  - reflexivity.
  - eapply Forall_impl; [|apply wanted_archives_wanted].
    intros a Hw fs1. now apply process_archive_agree.
Qed.

Lemma demo_libraries_agree : agree_on_wanted Demo.libs DemoStrict.libs.
Proof.
  repeat split; intros a dest fs Hw; simpl; unfold DemoStrict.unpack; now rewrite Hw.
Qed.

Lemma unwanted_archives_are_never_opened_witness :
  @start Demo.libs Demo.cfg Demo.scenario = @start DemoStrict.libs Demo.cfg Demo.scenario.
Proof.
  apply (unwanted_archives_are_never_opened Demo.libs DemoStrict.libs
           demo_libraries_agree Demo.cfg Demo.scenario).
Defined.

Section MoreRuns.

Context `{L : Libraries}.

Import FS Py.

Lemma marker_not_below_staging (cfg : config) (rest : path) :
  is_prefix (toolchain_prefix cfg ++ "ohos-sdk" :: rest) (marker_of cfg) = false
  /\ is_prefix (marker_of cfg) (toolchain_prefix cfg ++ "ohos-sdk" :: rest) = false.
Proof. rewrite marker_eq. now apply branches_incomparable. Qed.

(** X13.  The loop never takes its [continue]: the archives it is given
    come from the locator, so every iteration that completes has extracted
    its archive and gone through the relocation of the working directory
    named after the archive's token. *)
Theorem every_iteration_relocates
        (root prefix platform_dir archive : path) (fs0 fs fs' : node) :
  In archive (wanted_archives (_find_archives_recursively root fs0)) ->
  process_archive prefix platform_dir archive fs = Ok tt fs' ->
  exists fs1,
    _extract_archive archive platform_dir fs = Ok true fs1
    /\ relocate prefix (platform_dir ++ [_comp_of (path_str archive)]) fs1 = Ok tt fs'.
Proof.
  intros Hin Hrun. apply filter_In in Hin as [Hfound Hw].
  apply find_archives_recognized in Hfound.
  rewrite process_archive_unfold, (wanted_plain _ _ Hw) in Hrun.
  destruct (_extract_archive archive platform_dir fs) as [[|] fs1|e fs1] eqn:He.
  - exists fs1. now split.
  - apply extract_archive_flag in He. congruence.
  - discriminate.
Qed.

End MoreRuns.


Lemma every_iteration_relocates_witness :
  exists fs1,
    @_extract_archive Demo.libs Demo.native_archive Demo.linux_dir Demo.scenario
    = Ok true fs1
    /\ @relocate Demo.libs ["opt"; "sdk"] (Demo.linux_dir ++ ["native"]) fs1
       = Ok tt (final_fs (@process_archive Demo.libs ["opt"; "sdk"] Demo.linux_dir
                            Demo.native_archive Demo.scenario)).
Proof.
  apply (@every_iteration_relocates Demo.libs Demo.linux_dir ["opt"; "sdk"] Demo.linux_dir
           Demo.native_archive Demo.scenario Demo.scenario
           (final_fs (@process_archive Demo.libs ["opt"; "sdk"] Demo.linux_dir
                        Demo.native_archive Demo.scenario))
           (or_introl eq_refl) eq_refl).
Defined.

Lemma platform_dir_name_stable_witness : _platform_dir_name "darwin" = "mac".
Proof.
  apply (proj1 (proj2 (proj2 (proj2 (platform_dir_name_stable "darwin"))))). reflexivity.
Defined.

Lemma empty_version_is_unknown_witness :
  @relocate DemoStrict.libs_empty_version ["opt"; "sdk"] (Demo.linux_dir ++ ["ets"])
     DemoStrict.unversioned
  = relocate_unknown ["opt"; "sdk"] (Demo.linux_dir ++ ["ets"]) DemoStrict.unversioned.
Proof.
  apply (proj2 (@empty_version_is_unknown DemoStrict.libs_empty_version ["opt"; "sdk"]
                  (Demo.linux_dir ++ ["ets"]) DemoStrict.unversioned)).
  reflexivity.
Defined.

(* ================================================================== *)
(** * The program in its environment: the steps *)
(* ================================================================== *)

Section EnvironmentSteps.

Context `{L : Libraries} `{E : Environment}.

Import FS Py.

Lemma relocate_to_unfold (source_dir target_dir : path) (fs : node) :
  relocate_to source_dir target_dir fs
  = match (if exists_ target_dir fs then shutil_rmtree target_dir fs else Ok tt fs) with
    | Raise e fs1 => Raise e fs1
    | Ok _ fs1 =>
        match os_makedirs false target_dir fs1 with
        | Raise e fs2 => Raise e fs2
        | Ok _ fs2 => shutil_move source_dir target_dir fs2
        end
    end.
Proof.
  unfold relocate_to, bind, gets, ret.
  destruct (exists_ target_dir fs).
  - destruct (shutil_rmtree target_dir fs) as [[] fs1|e fs1]; [|reflexivity].
    now destruct (os_makedirs false target_dir fs1) as [[] fs2|e fs2].
  - now destruct (os_makedirs false target_dir fs) as [[] fs2|e fs2].
Qed.

Lemma relocate_is_relocate_to (prefix source_dir : path) (fs : node) :
  relocate prefix source_dir fs
  = relocate_to source_dir
      (os_path_join prefix (py_or (_read_api_version source_dir fs) "unknown")) fs.
Proof. now rewrite relocate_unfold, relocate_to_unfold. Qed.

(** The relocation raises exactly when the removal, the creation or the
    move does. *)
Lemma relocate_to_raised (source_dir target_dir : path) (fs : node) :
  raised (relocate_to source_dir target_dir fs) = true
  <-> (exists_ target_dir fs = true /\ raised (shutil_rmtree target_dir fs) = true)
      \/ (exists fs1,
            (if exists_ target_dir fs then shutil_rmtree target_dir fs else Ok tt fs)
            = Ok tt fs1
            /\ (raised (os_makedirs false target_dir fs1) = true
                \/ exists fs2,
                     os_makedirs false target_dir fs1 = Ok tt fs2
                     /\ raised (shutil_move source_dir target_dir fs2) = true)).
Proof.
  rewrite relocate_to_unfold.
  destruct (exists_ target_dir fs).
  - destruct (shutil_rmtree target_dir fs) as [[] fs1|e fs1].
    + destruct (os_makedirs false target_dir fs1) as [[] fs2|e fs2] eqn:Emk; split.
      * intros Hmv. right. exists fs1. split; [reflexivity|]. right. now exists fs2.
      * intros [[_ Hrm]|(fs1' & [= <-] & [Hmk|(fs2' & Hmk & Hmv)])].
        -- discriminate Hrm.
        -- rewrite Emk in Hmk. discriminate Hmk.
        -- rewrite Emk in Hmk. now injection Hmk as <-.
      * intros _. right. exists fs1. split; [reflexivity|]. left. now rewrite Emk.
      * reflexivity.
    + split; [now left|reflexivity].
  - destruct (os_makedirs false target_dir fs) as [[] fs2|e fs2] eqn:Emk; split.
    + intros Hmv. right. exists fs. split; [reflexivity|]. right. now exists fs2.
    + intros [[Hex _]|(fs1' & [= <-] & [Hmk|(fs2' & Hmk & Hmv)])].
      * discriminate Hex.
      * rewrite Emk in Hmk. discriminate Hmk.
      * rewrite Emk in Hmk. now injection Hmk as <-.
    + intros _. right. exists fs. split; [reflexivity|]. left. now rewrite Emk.
    + reflexivity.
Qed.

Lemma process_archive_in_unfold (prefix platform_dir archive : path) (fs : node) :
  process_archive_in prefix platform_dir archive fs
  = if stdout_accepts (extracting_line (path_str archive)) then
      match _extract_archive archive platform_dir fs with
      | Raise e fs1 => Raise e fs1
      | Ok false fs1 => print_line (skipping_line (path_str archive)) fs1
      | Ok true fs1 =>
          let source_dir := os_path_join platform_dir (_comp_of (path_str archive)) in
          if stdout_accepts (component_line (_comp_of (path_str archive))
                                            (version_key source_dir fs1))
          then relocate_to source_dir
                           (os_path_join prefix (version_key source_dir fs1)) fs1
          else Raise PrintError fs1
      end
    else Raise PrintError fs.
Proof.
  unfold process_archive_in, relocate_to, version_key, print_line, bind, gets.
  destruct (stdout_accepts (extracting_line (path_str archive))); [|reflexivity].
  destruct (_extract_archive archive platform_dir fs) as [[|] fs1|e fs1]; try reflexivity.
  cbn [negb]. cbv zeta.
  now destruct (stdout_accepts _).
Qed.

(** An iteration that completes has printed its lines, extracted the
    archive and relocated the working directory. *)
Lemma process_archive_in_ok (prefix platform_dir archive : path) (fs fs' : node) :
  recognized archive = true ->
  process_archive_in prefix platform_dir archive fs = Ok tt fs' ->
  let source_dir := os_path_join platform_dir (_comp_of (path_str archive)) in
  exists fs1,
    stdout_accepts (extracting_line (path_str archive)) = true
    /\ _extract_archive archive platform_dir fs = Ok true fs1
    /\ stdout_accepts (component_line (_comp_of (path_str archive))
                                      (version_key source_dir fs1)) = true
    /\ relocate_to source_dir (os_path_join prefix (version_key source_dir fs1)) fs1
       = Ok tt fs'.
Proof.
  intros Hrec Hrun source_dir. rewrite process_archive_in_unfold in Hrun.
  destruct (stdout_accepts (extracting_line (path_str archive))); [|discriminate].
  destruct (_extract_archive archive platform_dir fs) as [[|] fs1|e fs1] eqn:He;
    [| |discriminate].
  - cbv zeta in Hrun. fold source_dir in Hrun.
    destruct (stdout_accepts (component_line _ _)) eqn:Hline; [|discriminate].
    exists fs1. now repeat split.
  - apply extract_archive_flag in He. congruence.
Qed.

Lemma prepare_in_unfold (prefix : path) (fs : node) :
  prepare_in prefix fs
  = match (if exists_ prefix fs then Ok tt fs else os_makedirs false prefix fs) with
    | Ok _ fs1 =>
        Ok tt (final_fs (write_file_in (os_path_join prefix ".ohos-sdk-version")
                                       marker_text fs1))
    | Raise e fs1 => Raise e fs1
    end.
Proof.
  unfold prepare_in, bind, gets, try_pass, ret.
  destruct (exists_ prefix fs); simpl.
  - now destruct (write_file_in _ _ fs).
  - destruct (os_makedirs false prefix fs) as [[] fs1|e fs1]; [|reflexivity].
    now destruct (write_file_in _ _ fs1).
Qed.

Lemma start_in_unfold (cfg : config) (fs : node) :
  start_in cfg fs
  = match prepare_in (toolchain_prefix cfg) fs with
    | Raise e fs0 => Raise e fs0
    | Ok _ fs0 =>
        if isdir (sdk_dir_of cfg) fs0 then
          match for_each (process_archive_in (toolchain_prefix cfg) (platform_dir_of cfg))
                         (wanted_archives
                            (_find_archives_recursively (platform_dir_of cfg) fs0)) fs0
          with
          | Ok _ fs1 => rmtree_quiet (sdk_dir_of cfg) fs1
          | Raise e fs1 => Raise e fs1
          end
        else Ok tt fs0
    end.
Proof.
  unfold start_in, prepare_in, sdk_dir_of, platform_dir_of, sdk_dir_of, bind, gets, ret.
  destruct (exists_ (toolchain_prefix cfg) fs); simpl.
  - destruct (try_pass _ fs) as [[] fs0|e fs0]; [|reflexivity].
    destruct (isdir _ fs0); simpl; [|reflexivity].
    now destruct (for_each _ _ fs0).
  - destruct (os_makedirs false (toolchain_prefix cfg) fs) as [[] fs1|e fs1]; [|reflexivity].
    destruct (try_pass _ fs1) as [[] fs0|e fs0]; [|reflexivity].
    destruct (isdir _ fs0); simpl; [|reflexivity].
    now destruct (for_each _ _ fs0).
Qed.

(** The write of the marker touches nothing but the marker. *)
Lemma write_file_in_same_off (p : path) (data : string) (fs : node) :
  same_off p fs (final_fs (write_file_in p data fs)).
Proof.
  unfold write_file_in. destruct (disk_keeps p data) as [kept|]; [|apply same_off_refl].
  pose proof (write_file_same_off p kept fs) as Hoff.
  destruct (write_file p kept fs) as [[] fs'|e fs']; [|exact Hoff].
  now destruct (String.eqb kept data).
Qed.

(** What the write leaves at the path: what the disk kept, in a directory
    that is there, at a path that is no directory. *)
Lemma write_file_in_stored (p : path) (x data kept : string) (fs : node) :
  disk_keeps (p ++ [x]) data = Some kept ->
  isdir p fs = true ->
  isdir (p ++ [x]) fs = false ->
  lookup (p ++ [x]) (final_fs (write_file_in (p ++ [x]) data fs)) = Some (File kept).
Proof.
  intros Hkeep Hdir Hnodir. unfold write_file_in. rewrite Hkeep.
  unfold isdir in Hdir, Hnodir.
  destruct (lookup p fs) as [[d|es]|] eqn:Hp; try discriminate.
  assert (Hw : write_file (p ++ [x]) kept fs
               = Ok tt (place (p ++ [x]) (File kept) fs)).
  { unfold write_file. destruct (lookup (p ++ [x]) fs) as [[d|es']|]; try discriminate.
    - reflexivity.
    - now rewrite removelast_last, Hp. }
  rewrite Hw.
  assert (Hlanded : lookup (p ++ [x]) (place (p ++ [x]) (File kept) fs)
                    = Some (File kept)) by (eapply lookup_place_same; exact Hp).
  now destruct (String.eqb kept data).
Qed.

Lemma write_file_in_refused (p : path) (data : string) (fs : node) :
  disk_keeps p data = None -> final_fs (write_file_in p data fs) = fs.
Proof. intros Hkeep. unfold write_file_in. now rewrite Hkeep. Qed.

End EnvironmentSteps.

(* ================================================================== *)
(** * The removal that passes over what it cannot remove *)
(* ================================================================== *)

Section QuietRemoval.

Context `{E : Environment}.

Import FS Py.

Lemma sweep_cons (here : path) (x : string) (c : node) (es : list (string * node)) :
  sweep here (Dir ((x, c) :: es))
  = Dir (match c with
         | File _ =>
             if may_remove (here ++ [x]) then listing (sweep here (Dir es))
             else (x, c) :: listing (sweep here (Dir es))
         | Dir _ =>
             match sweep (here ++ [x]) c with
             | Dir [] =>
                 if may_remove (here ++ [x]) then listing (sweep here (Dir es))
                 else (x, Dir []) :: listing (sweep here (Dir es))
             | kept => (x, kept) :: listing (sweep here (Dir es))
             end
         end).
Proof. destruct c; reflexivity. Qed.

Lemma sweep_dir (here : path) (es : list (string * node)) :
  sweep here (Dir es) = Dir (listing (sweep here (Dir es))).
Proof. reflexivity. Qed.

(** Where every entry below can be removed, nothing is left. *)
Lemma sweep_all (n : node) :
  forall here,
    (forall q, q <> [] -> may_remove (here ++ q) = true) ->
    listing (sweep here n) = [].
Proof.
  induction n as [data|es IH] using node_tree_ind; intros here Hall; [reflexivity|].
  induction es as [|[x c] es IHes]; [reflexivity|].
  inversion IH as [|e es' Hc Hes]; subst.
  specialize (IHes Hes). rewrite sweep_cons. cbn [listing].
  assert (Hx : may_remove (here ++ [x]) = true) by (apply Hall; discriminate).
  destruct c as [data|sub].
  - now rewrite Hx.
  - assert (Hs : sweep (here ++ [x]) (Dir sub) = Dir []).
    { rewrite sweep_dir. f_equal. apply (Hc (here ++ [x])).
      intros q Hq. rewrite <- app_assoc. apply Hall. now destruct q. }
    rewrite Hs, Hx. exact IHes.
Qed.







End QuietRemoval.

(* ================================================================== *)
(** * The environment that refuses nothing *)
(* ================================================================== *)

Section Willing.

Context `{L : Libraries}.

Import FS Py.

Lemma read_api_version_in_willing (root : path) (fs : node) :
  @_read_api_version_in L willing root fs = _read_api_version root fs.
Proof. reflexivity. Qed.

Lemma process_archive_in_willing (prefix platform_dir archive : path) (fs : node) :
  @process_archive_in L willing prefix platform_dir archive fs
  = process_archive prefix platform_dir archive fs.
Proof.
  rewrite process_archive_in_unfold, process_archive_unfold. cbn [stdout_accepts willing].
  now destruct (_extract_archive archive platform_dir fs) as [[|] fs1|e fs1].
Qed.

Lemma write_file_in_willing (p : path) (data : string) (fs : node) :
  @write_file_in willing p data fs = write_file p data fs.
Proof.
  unfold write_file_in. cbn [disk_keeps willing]. rewrite String.eqb_refl.
  now destruct (write_file p data fs) as [[] fs'|e fs'].
Qed.

Lemma rmtree_quiet_willing (p : path) (fs : node) :
  @rmtree_quiet willing p fs = shutil_rmtree_ignore_errors p fs.
Proof.
  unfold rmtree_quiet, shutil_rmtree_ignore_errors, try_pass, shutil_rmtree.
  destruct (lookup p fs) as [[d|es]|]; try reflexivity.
  rewrite sweep_dir, (@sweep_all willing (Dir es) p) by reflexivity.
  now destruct p.
Qed.

(** The functions named after the source are their counterparts in the
    environment that refuses nothing. *)
Lemma start_in_willing (cfg : config) (fs : node) :
  @start_in L willing cfg fs = start cfg fs.
Proof.
  rewrite start_in_unfold, start_unfold, prepare_in_unfold, prepare_unfold.
  destruct (if exists_ (toolchain_prefix cfg) fs then Ok tt fs
            else os_makedirs false (toolchain_prefix cfg) fs) as [[] fs1|e fs1];
    [|reflexivity].
  rewrite write_file_in_willing.
  destruct (isdir (sdk_dir_of cfg) _); [|reflexivity].
  rewrite (for_each_ext (@process_archive_in L willing (toolchain_prefix cfg)
                                             (platform_dir_of cfg))
                        (process_archive (toolchain_prefix cfg) (platform_dir_of cfg))).
  - destruct (for_each _ _ _) as [[] fs2|e fs2]; [|reflexivity].
    apply rmtree_quiet_willing.
  - apply Forall_forall. intros a _ fs2. apply process_archive_in_willing.
Qed.

End Willing.

(* ================================================================== *)
(** * The Metadata Reader in its environment *)
(* ================================================================== *)

Section ReaderInEnvironment.

Context `{L : Libraries} `{E : Environment}.

Import FS Py.

Lemma version_of_file_in_unfold (pkg : path) (fs : node) :
  version_of_file_in pkg fs = if may_read pkg then version_of_file pkg fs else None.
Proof.
  unfold version_of_file_in, load_json_in, version_of_file. now destruct (may_read pkg).
Qed.

Lemma read_api_version_in_located (root : path) (fs : node) :
  _read_api_version_in root fs
  = match located_metadata root fs with
    | Some pkg => version_of_file_in pkg fs
    | None => None
    end.
Proof.
  unfold _read_api_version_in, located_metadata.
  destruct (isfile (os_path_join root metadata_name) fs); simpl; [reflexivity|].
  now destruct (glob_one_level root metadata_name fs).
Qed.

Lemma read_api_version_in_absent (root : path) (fs : node) :
  lookup root fs = None -> _read_api_version_in root fs = None.
Proof.
  intros Hroot. unfold _read_api_version_in, isfile, glob_one_level.
  now rewrite metadata_path, lookup_app, Hroot.
Qed.


(** C6, amended.  For a component root of plain names, the reader returns
    no version, and raises nothing, when no metadata file is located, when
    what is located cannot be read (the environment refuses, it is a
    directory, or its bytes do not decode), when its text is not valid
    JSON, when the document is not an object, when the object has no
    [apiVersion] field and when the field holds [null]; for a valid object
    with any other value under [apiVersion] it returns that value coerced
    to a string.  Where the reader returns no version the pipeline uses
    the version [unknown]: it prints it and relocates to
    [<prefix>/unknown]. *)
Theorem metadata_reader_cases (root : path) (fs : node) :
  plain_path root = true ->
  (located_metadata root fs = None -> _read_api_version_in root fs = None)
  /\ (forall pkg, located_metadata root fs = Some pkg ->
        (may_read pkg = false -> _read_api_version_in root fs = None)
        /\ (isfile pkg fs = false -> _read_api_version_in root fs = None)
        /\ (forall bytes, may_read pkg = true -> lookup pkg fs = Some (File bytes) ->
              (utf8_decode bytes = None -> _read_api_version_in root fs = None)
              /\ (forall text, utf8_decode bytes = Some text ->
                    (json_loads text = None -> _read_api_version_in root fs = None)
                    /\ (forall data, json_loads text = Some data ->
                          ((forall d, data <> PyDict d) ->
                           _read_api_version_in root fs = None)
                          /\ (forall d, data = PyDict d ->
                                (assoc "apiVersion" d = None ->
                                 _read_api_version_in root fs = None)
                                /\ (assoc "apiVersion" d = Some PyNone ->
                                    _read_api_version_in root fs = None)
                                /\ (forall v, assoc "apiVersion" d = Some v ->
                                      v <> PyNone ->
                                      _read_api_version_in root fs = Some (py_str v)))))))
  /\ (_read_api_version_in root fs = None ->
      version_key root fs = "unknown"
      /\ forall prefix platform_dir archive fs0,
           os_path_join platform_dir (_comp_of (path_str archive)) = root ->
           stdout_accepts (extracting_line (path_str archive)) = true ->
           _extract_archive archive platform_dir fs0 = Ok true fs ->
           process_archive_in prefix platform_dir archive fs0
           = (print_line (component_line (_comp_of (path_str archive)) "unknown") ;;
              relocate_to root (prefix ++ ["unknown"])) fs).
Proof.
  intros _. rewrite read_api_version_in_located. split; [|split].
  - now intros ->.
  - intros pkg ->. rewrite version_of_file_in_unfold. split; [now intros ->|].
    unfold version_of_file, load_json, isfile. split.
    + destruct (may_read pkg); [|reflexivity].
      now destruct (lookup pkg fs) as [[bytes|es]|].
    + intros bytes -> ->. split; [now intros ->|].
      intros text ->. split; [now intros ->|].
      intros data ->. split.
      * intros Hnot. destruct data; try reflexivity. now destruct (Hnot items).
      * intros d ->. rewrite py_get_dict. split; [now intros ->|].
        split; [now intros ->|]. intros v -> Hv. now destruct v.
  - intros Hnone.
    assert (Hkey : version_key root fs = "unknown").
    { unfold version_key. now rewrite read_api_version_in_located, Hnone. }
    split; [exact Hkey|].
    intros prefix platform_dir archive fs0 Hroot Hline He.
    rewrite process_archive_in_unfold, Hline, He. cbv zeta. rewrite Hroot, Hkey.
    unfold bind, print_line.
    destruct (stdout_accepts (component_line (_comp_of (path_str archive)) "unknown"));
      reflexivity.
Qed.

(** X5.  The reader reads nothing outside the component root: for a root
    of plain names, two file systems that hold the same tree at the root
    give the same answer in the same environment. *)
Theorem read_api_version_local (root : path) (fs fs' : node) :
  plain_path root = true ->
  lookup root fs = lookup root fs' ->
  _read_api_version_in root fs = _read_api_version_in root fs'.
Proof.
  intros _ Hroot.
  assert (Hbelow : forall r, lookup (root ++ r) fs = lookup (root ++ r) fs').
  { intros r. now rewrite !lookup_app, Hroot. }
  assert (Hfile : forall r,
             version_of_file_in (root ++ r) fs = version_of_file_in (root ++ r) fs').
  { intros r. rewrite !version_of_file_in_unfold.
    unfold version_of_file, load_json. now rewrite Hbelow. }
  unfold _read_api_version_in, isfile, glob_one_level.
  rewrite metadata_path, Hbelow, <- Hroot.
  destruct (lookup (root ++ [metadata_name]) fs') as [[d|es]|]; simpl;
    try apply Hfile.
  - destruct (lookup root fs) as [[d'|es']|]; try reflexivity.
    clear Hroot. induction es' as [|e es' IH]; [reflexivity|]. cbn [flat_map].
    rewrite candidate_of_entry. destruct (qualifies e); cbn [app]; [apply Hfile|exact IH].
  - destruct (lookup root fs) as [[d'|es']|]; try reflexivity.
    clear Hroot. induction es' as [|e es' IH]; [reflexivity|]. cbn [flat_map].
    rewrite candidate_of_entry. destruct (qualifies e); cbn [app]; [apply Hfile|exact IH].
Qed.

End ReaderInEnvironment.


Lemma metadata_reader_cases_witness :
  @_read_api_version_in Demo.libs DemoEnv.stubborn (Demo.linux_dir ++ ["native"])
     Demo.scenario = None
  /\ @_read_api_version_in Demo.libs DemoEnv.stubborn ["comp"] DemoEnv.guarded = None
  /\ @_read_api_version_in Demo.libs DemoEnv.stubborn ["comp"; "b"] Demo.two_candidates
     = Some "12".
Proof.
  destruct (@metadata_reader_cases Demo.libs DemoEnv.stubborn
              (Demo.linux_dir ++ ["native"]) Demo.scenario eq_refl)
    as (Habsent & _).
  destruct (@metadata_reader_cases Demo.libs DemoEnv.stubborn ["comp"] DemoEnv.guarded
              eq_refl)
    as (_ & Hrefused & _).
  destruct (@metadata_reader_cases Demo.libs DemoEnv.stubborn ["comp"; "b"]
              Demo.two_candidates eq_refl)
    as (_ & Hfound & _).
  split; [now apply Habsent|]. split.
  - destruct (Hrefused ["comp"; "oh-uni-package.json"] eq_refl) as (Hno & _).
    now apply Hno.
  - destruct (Hfound ["comp"; "b"; "oh-uni-package.json"] eq_refl) as (_ & _ & Hfile).
    destruct (Hfile "apiVersion=12" eq_refl eq_refl) as (_ & Htext).
    destruct (Htext "apiVersion=12" eq_refl) as (_ & Hdata).
    destruct (Hdata (PyDict [("apiVersion", PyStr "12")]) eq_refl) as (_ & Hdict).
    destruct (Hdict [("apiVersion", PyStr "12")] eq_refl) as (_ & _ & Hvalue).
    apply (Hvalue (PyStr "12") eq_refl). discriminate.
Defined.

Lemma read_api_version_local_witness :
  @_read_api_version_in Demo.libs willing ["comp"] Demo.two_candidates
  = @_read_api_version_in Demo.libs willing ["comp"]
      (Dir [("comp", Dir [
         ("b", Dir [("oh-uni-package.json", File "apiVersion=12")]);
         ("a", Dir [("oh-uni-package.json", File "apiVersion=9")])]);
            ("elsewhere", File "noise")]).
Proof.
  apply (@read_api_version_local Demo.libs willing ["comp"] Demo.two_candidates);
    reflexivity.
Defined.

(* ================================================================== *)
(** * One iteration of the loop in its environment *)
(* ================================================================== *)

Section IterationInEnvironment.

Context `{L : Libraries} `{E : Environment}.

Import FS Py.


(** C1, amended.  Let the prefix and the platform directory be paths of
    plain names, let the version key hold no component [.] or [..], let a
    wanted archive be extracted, and let the directory
    [<prefix>/<ApiVersion>] it resolves to exist and not be the working
    directory [<platform-dir>/<ComponentToken>] of the component itself.
    An iteration that completes has removed the target with all it held,
    recreated it empty and moved the working directory into it:
    afterwards the target lists one entry, the component, with the tree
    the extraction left in the working directory, nothing of the earlier
    tree is below the target, and the working directory is gone. *)
Theorem relocation_replaces_target
        (prefix platform_dir archive : path) (fs fs1 fs' : node) :
  let comp := _comp_of (path_str archive) in
  let source_dir := platform_dir ++ [comp] in
  let target_dir := os_path_join prefix (version_key source_dir fs1) in
  plain_path prefix = true ->
  plain_path platform_dir = true ->
  plain_key (version_key source_dir fs1) = true ->
  wanted comp = true ->
  _extract_archive archive platform_dir fs = Ok true fs1 ->
  exists_ target_dir fs1 = true ->
  source_dir <> target_dir ->
  process_archive_in prefix platform_dir archive fs = Ok tt fs' ->
  exists fs2 fs3 t,
    shutil_rmtree target_dir fs1 = Ok tt fs2
    /\ exists_ target_dir fs2 = false
    /\ os_makedirs false target_dir fs2 = Ok tt fs3
    /\ lookup target_dir fs3 = Some (Dir [])
    /\ shutil_move source_dir target_dir fs3 = Ok tt fs'
    /\ lookup source_dir fs1 = Some t
    /\ lookup target_dir fs' = Some (Dir [(comp, t)])
    /\ lookup source_dir fs' = None.
Proof.
  intros comp source_dir target_dir _ _ _ Hw He Hex Hdiff Hrun.
  assert (Hsrc_ne : source_dir <> []) by (unfold source_dir; now destruct platform_dir).
  assert (Hjoin : os_path_join target_dir comp = target_dir ++ [comp])
    by now apply wanted_plain.
  assert (Hrec : recognized archive = true).
  { apply extract_archive_flag in He. congruence. }
  destruct (process_archive_in_ok _ _ _ _ _ Hrec Hrun) as (fs1' & _ & He' & _ & Hrel).
  rewrite He in He'. injection He' as <-.
  rewrite (wanted_plain _ _ Hw) in Hrel. fold comp source_dir target_dir in Hrel.
  rewrite relocate_to_unfold, Hex in Hrel.
  destruct (shutil_rmtree target_dir fs1) as [[] fs2|e fs2] eqn:Erm; [|discriminate].
  destruct (shutil_rmtree_ok _ _ _ Erm) as (Hdir & Hne & ->).
  destruct (clear_target target_dir fs1 Hdir Hne)
    as (_ & Hgone & Hmk & Hempty & Hoff & _).
  rewrite Hmk in Hrel.
  pose proof Hrel as Hmove.
  apply shutil_move_into_empty_ok in Hrel as (t & Hsrc3 & Hst & Hts & ->);
    try assumption.
  destruct (moved_into_target source_dir target_dir comp t _ Hempty Hsrc_ne Hts Hst)
    as [Hlanded Hmoved].
  eexists _, _, t. repeat split; try eassumption.
  - unfold exists_. now rewrite Hgone.
  - now rewrite <- (Hoff source_dir Hts Hst).
Qed.

(** X8.  A first install, under the same conditions on the names: when
    the version directory of a wanted, extracted component does not exist
    yet and is not its working directory, an iteration that completes has
    created the directory and left the component as its only entry, and
    the working directory is gone. *)
Theorem relocation_into_fresh_target
        (prefix platform_dir archive : path) (fs fs1 fs' : node) :
  let comp := _comp_of (path_str archive) in
  let source_dir := platform_dir ++ [comp] in
  let target_dir := os_path_join prefix (version_key source_dir fs1) in
  plain_path prefix = true ->
  plain_path platform_dir = true ->
  plain_key (version_key source_dir fs1) = true ->
  wanted comp = true ->
  _extract_archive archive platform_dir fs = Ok true fs1 ->
  exists_ target_dir fs1 = false ->
  source_dir <> target_dir ->
  process_archive_in prefix platform_dir archive fs = Ok tt fs' ->
  exists fs3 t,
    os_makedirs false target_dir fs1 = Ok tt fs3
    /\ shutil_move source_dir target_dir fs3 = Ok tt fs'
    /\ lookup source_dir fs1 = Some t
    /\ lookup target_dir fs' = Some (Dir [(comp, t)])
    /\ lookup source_dir fs' = None.
Proof.
  intros comp source_dir target_dir _ _ _ Hw He Hfresh Hdiff Hrun.
  assert (Hsrc_ne : source_dir <> []) by (unfold source_dir; now destruct platform_dir).
  assert (Hjoin : os_path_join target_dir comp = target_dir ++ [comp])
    by now apply wanted_plain.
  assert (Hrec : recognized archive = true).
  { apply extract_archive_flag in He. congruence. }
  destruct (process_archive_in_ok _ _ _ _ _ Hrec Hrun) as (fs1' & _ & He' & _ & Hrel).
  rewrite He in He'. injection He' as <-.
  rewrite (wanted_plain _ _ Hw) in Hrel. fold comp source_dir target_dir in Hrel.
  rewrite relocate_to_unfold, Hfresh in Hrel.
  pose proof (os_makedirs_same_off false target_dir fs1) as Hoff.
  destruct (os_makedirs false target_dir fs1) as [[] fs3|e fs3] eqn:Emk; [|discriminate].
  simpl in Hoff. destruct (os_makedirs_fresh _ _ _ Emk) as [_ Hempty].
  pose proof Hrel as Hmove.
  apply shutil_move_into_empty_ok in Hrel as (t & Hsrc3 & Hst & Hts & ->);
    try assumption.
  destruct (moved_into_target source_dir target_dir comp t fs3 Hempty Hsrc_ne Hts Hst)
    as [Hlanded Hmoved].
  exists fs3, t. repeat split; try assumption.
  now rewrite <- (Hoff source_dir Hst).
Qed.

(** X9.  An archive that is extracted without leaving the working
    directory named after its token aborts the run: its version resolves
    to [unknown] and, if nothing raised before, the move raises.  When the
    lines were printed and the removal and the creation of an existing
    [<prefix>/unknown] raised nothing, the failed iteration leaves that
    directory empty.  The platform directory is below [<prefix>/ohos-sdk],
    and the paths are made of plain names. *)
Theorem unpacked_without_working_directory
        (prefix rest archive : path) (fs fs1 : node) :
  let platform_dir := prefix ++ "ohos-sdk" :: rest in
  let comp := _comp_of (path_str archive) in
  let target_dir := prefix ++ ["unknown"] in
  plain_path platform_dir = true ->
  wanted comp = true ->
  _extract_archive archive platform_dir fs = Ok true fs1 ->
  lookup (platform_dir ++ [comp]) fs1 = None ->
  version_key (platform_dir ++ [comp]) fs1 = "unknown"
  /\ raised (process_archive_in prefix platform_dir archive fs) = true
  /\ (forall fs2 fs3,
        stdout_accepts (extracting_line (path_str archive)) = true ->
        stdout_accepts (component_line comp "unknown") = true ->
        exists_ target_dir fs1 = true ->
        shutil_rmtree target_dir fs1 = Ok tt fs2 ->
        os_makedirs false target_dir fs2 = Ok tt fs3 ->
        final_fs (process_archive_in prefix platform_dir archive fs) = fs3
        /\ lookup target_dir fs3 = Some (Dir [])).
Proof.
  intros platform_dir comp target_dir _ Hw He Hsrc.
  set (source_dir := platform_dir ++ [comp]) in *.
  assert (Hinc : is_prefix source_dir target_dir = false
                 /\ is_prefix target_dir source_dir = false).
  { unfold source_dir, platform_dir, target_dir. rewrite <- app_assoc. simpl.
    now apply branches_incomparable. }
  destruct Hinc as [Hst Hts].
  assert (Hkey : version_key source_dir fs1 = "unknown").
  { unfold version_key. now rewrite (read_api_version_in_absent _ _ Hsrc). }
  assert (Hrun : process_archive_in prefix platform_dir archive fs
                 = if stdout_accepts (extracting_line (path_str archive)) then
                     if stdout_accepts (component_line comp "unknown") then
                       relocate_to source_dir target_dir fs1
                     else Raise PrintError fs1
                   else Raise PrintError fs).
  { rewrite process_archive_in_unfold, He, (wanted_plain _ _ Hw). cbv zeta.
    fold comp source_dir. now rewrite Hkey. }
  split; [exact Hkey|]. split.
  - rewrite Hrun.
    destruct (stdout_accepts (extracting_line (path_str archive))); [|reflexivity].
    destruct (stdout_accepts (component_line comp "unknown")); [|reflexivity].
    rewrite relocate_to_unfold. destruct (exists_ target_dir fs1).
    + destruct (shutil_rmtree target_dir fs1) as [[] fs2|e fs2] eqn:Erm; [|reflexivity].
      apply shutil_rmtree_ok in Erm as (_ & _ & ->).
      pose proof (os_makedirs_same_off false target_dir (remove target_dir fs1)) as Hoff.
      destruct (os_makedirs false target_dir (remove target_dir fs1)) as [[] fs3|e fs3];
        [|reflexivity].
      simpl in Hoff. apply shutil_move_missing.
      now rewrite (Hoff source_dir Hst), lookup_remove_incomparable.
    + pose proof (os_makedirs_same_off false target_dir fs1) as Hoff.
      destruct (os_makedirs false target_dir fs1) as [[] fs3|e fs3]; [|reflexivity].
      simpl in Hoff. apply shutil_move_missing. now rewrite (Hoff source_dir Hst).
  - intros fs2 fs3 Hline1 Hline2 Hex Hrm Hmk.
    rewrite Hrun, Hline1, Hline2, relocate_to_unfold, Hex, Hrm, Hmk.
    pose proof (os_makedirs_same_off false target_dir fs2) as Hoff.
    rewrite Hmk in Hoff. simpl in Hoff.
    destruct (os_makedirs_fresh _ _ _ Hmk) as [_ Hempty].
    apply shutil_rmtree_ok in Hrm as (_ & _ & ->).
    destruct (shutil_move_missing_state source_dir target_dir fs3) as [e ->].
    + now rewrite (Hoff source_dir Hst), lookup_remove_incomparable.
    + split; [reflexivity|exact Hempty].
Qed.

End IterationInEnvironment.

Lemma relocation_replaces_target_witness :
  FS.lookup ["opt"; "sdk"; "12"]
    (final_fs (@process_archive_in Demo.libs DemoEnv.stubborn ["opt"; "sdk"] Demo.linux_dir
                 Demo.native_archive Demo.scenario))
  = Some (Dir [("native", Dir [("oh-uni-package.json", File "apiVersion=12");
                               ("libace.so", File "ELF")])]).
Proof.
  destruct (@relocation_replaces_target Demo.libs DemoEnv.stubborn
              ["opt"; "sdk"] Demo.linux_dir Demo.native_archive Demo.scenario
              (final_fs (@_extract_archive Demo.libs Demo.native_archive Demo.linux_dir
                                           Demo.scenario))
              (final_fs (@process_archive_in Demo.libs DemoEnv.stubborn ["opt"; "sdk"]
                           Demo.linux_dir Demo.native_archive Demo.scenario))
              eq_refl eq_refl eq_refl eq_refl eq_refl eq_refl)
    as (fs2 & fs3 & t & _ & _ & _ & _ & _ & Ht & Htarget & _);
    [discriminate|reflexivity|].
  vm_compute in Ht. injection Ht as <-. exact Htarget.
Defined.

Lemma relocation_into_fresh_target_witness :
  FS.lookup ["opt"; "sdk"; "12"]
    (final_fs (@process_archive_in Demo.libs willing ["opt"; "sdk"] Demo.linux_dir
                 (Demo.linux_dir ++ ["native-linux.zip"])
                 (DemoStrict.with_unknown [("native-linux.zip", File "pack:native-12")])))
  = Some (Dir [("native", Dir [("oh-uni-package.json", File "apiVersion=12");
                               ("libace.so", File "ELF")])]).
Proof.
  destruct (@relocation_into_fresh_target Demo.libs willing
              ["opt"; "sdk"] Demo.linux_dir (Demo.linux_dir ++ ["native-linux.zip"])
              (DemoStrict.with_unknown [("native-linux.zip", File "pack:native-12")])
              (final_fs (@_extract_archive Demo.libs (Demo.linux_dir ++ ["native-linux.zip"])
                           Demo.linux_dir
                           (DemoStrict.with_unknown
                              [("native-linux.zip", File "pack:native-12")])))
              (final_fs (@process_archive_in Demo.libs willing ["opt"; "sdk"]
                           Demo.linux_dir (Demo.linux_dir ++ ["native-linux.zip"])
                           (DemoStrict.with_unknown
                              [("native-linux.zip", File "pack:native-12")])))
              eq_refl eq_refl eq_refl eq_refl eq_refl eq_refl)
    as (fs3 & t & _ & _ & Ht & Htarget & _);
    [discriminate|reflexivity|].
  vm_compute in Ht. injection Ht as <-. exact Htarget.
Defined.

Lemma unpacked_without_working_directory_witness :
  raised (@process_archive_in Demo.libs willing ["opt"; "sdk"] Demo.linux_dir
            (Demo.linux_dir ++ ["ets-api9.zip"])
            (DemoStrict.with_unknown [("ets-api9.zip", File "pack:empty")])) = true.
Proof.
  apply (@unpacked_without_working_directory Demo.libs willing ["opt"; "sdk"] ["linux"]
           (Demo.linux_dir ++ ["ets-api9.zip"])
           (DemoStrict.with_unknown [("ets-api9.zip", File "pack:empty")])
           (DemoStrict.with_unknown [("ets-api9.zip", File "pack:empty")])
           eq_refl eq_refl eq_refl eq_refl).
Defined.

(* ================================================================== *)
(** * The run in its environment *)
(* ================================================================== *)

Section RunsInEnvironment.

Context `{L : Libraries} `{E : Environment}.

Import FS Py.



Lemma prepare_in_same_off (cfg : config) (fs fs0 : node) :
  exists_ (toolchain_prefix cfg) fs = true ->
  prepare_in (toolchain_prefix cfg) fs = Ok tt fs0 ->
  same_off (marker_of cfg) fs fs0.
Proof.
  intros Hex Hp. rewrite prepare_in_unfold, Hex in Hp. injection Hp as <-.
  apply write_file_in_same_off.
Qed.

Lemma prepare_in_returns (prefix : path) (fs : node) :
  exists_ prefix fs = true -> exists fs0, prepare_in prefix fs = Ok tt fs0.
Proof. intros Hex. rewrite prepare_in_unfold, Hex. eexists. reflexivity. Qed.

(** The staging test after the preparation is the staging test before
    it. *)
Lemma prepare_in_staging (cfg : config) (fs fs0 : node) :
  prepare_in (toolchain_prefix cfg) fs = Ok tt fs0 ->
  isdir (sdk_dir_of cfg) fs0 = isdir (sdk_dir_of cfg) fs.
Proof.
  intros Hp.
  destruct (marker_not_below_staging cfg []) as [Hsm _]. rewrite <- sdk_dir_eq in Hsm.
  rewrite prepare_in_unfold in Hp. fold (marker_of cfg) in Hp.
  destruct (exists_ (toolchain_prefix cfg) fs) eqn:Hex.
  - injection Hp as <-. unfold isdir.
    now rewrite (write_file_in_same_off _ _ _ _ Hsm).
  - destruct (os_makedirs false (toolchain_prefix cfg) fs) as [[] fs1|e fs1] eqn:Hmk;
      [|discriminate].
    injection Hp as <-. destruct (os_makedirs_fresh _ _ _ Hmk) as [_ Hempty].
    unfold isdir. rewrite (write_file_in_same_off _ _ _ _ Hsm).
    rewrite sdk_dir_eq, !lookup_app, Hempty. unfold exists_ in Hex.
    now destruct (lookup (toolchain_prefix cfg) fs).
Qed.



(** X11.  With nothing staged, the run is the preparation of the prefix
    alone.  On an existing prefix it returns, and all it can have changed
    is the marker file: when the prefix is a directory and the marker path
    is not one, the marker holds what the disk kept of the SDK version
    followed by a newline, all of it when the write met no error; when the
    marker cannot be opened nothing has changed.  The configuration is
    made of plain names. *)
Theorem run_without_staging (cfg : config) (fs : node) :
  plain_config cfg = true ->
  isdir (sdk_dir_of cfg) fs = false ->
  start_in cfg fs = prepare_in (toolchain_prefix cfg) fs
  /\ (exists_ (toolchain_prefix cfg) fs = true ->
      exists fs',
        start_in cfg fs = Ok tt fs'
        /\ same_off (marker_of cfg) fs fs'
        /\ (forall kept,
              disk_keeps (marker_of cfg) marker_text = Some kept ->
              isdir (toolchain_prefix cfg) fs = true ->
              isdir (marker_of cfg) fs = false ->
              lookup (marker_of cfg) fs' = Some (File kept))
        /\ (disk_keeps (marker_of cfg) marker_text = None -> fs' = fs)).
Proof.
  intros _ Hno.
  assert (Hstart : start_in cfg fs = prepare_in (toolchain_prefix cfg) fs).
  { rewrite start_in_unfold.
    destruct (prepare_in (toolchain_prefix cfg) fs) as [[] fs0|e fs0] eqn:Hp;
      [|reflexivity].
    now rewrite (prepare_in_staging _ _ _ Hp), Hno. }
  split; [exact Hstart|]. intros Hex.
  destruct (prepare_in_returns _ _ Hex) as [fs0 Hp].
  exists fs0. rewrite Hstart. split; [exact Hp|]. split; [|split].
  - now apply prepare_in_same_off.
  - intros kept Hkeep Hdir Hnodir. rewrite prepare_in_unfold, Hex in Hp.
    injection Hp as <-. fold (marker_of cfg). rewrite marker_eq in *.
    now apply write_file_in_stored.
  - intros Hrefused. rewrite prepare_in_unfold, Hex in Hp. injection Hp as <-.
    fold (marker_of cfg). now apply write_file_in_refused.
Qed.


End RunsInEnvironment.



Lemma run_without_staging_witness :
  exists fs',
    @start_in Demo.libs willing Demo.cfg DemoStrict.bare = Ok tt fs'
    /\ FS.lookup ["opt"; "sdk"; ".ohos-sdk-version"] fs' = Some (File marker_text).
Proof.
  destruct (proj2 (@run_without_staging Demo.libs willing Demo.cfg DemoStrict.bare
                     eq_refl eq_refl) eq_refl)
    as (fs' & Hrun & _ & Hmarker & _).
  exists fs'. split; [exact Hrun|exact (Hmarker marker_text eq_refl eq_refl eq_refl)].
Defined.


(* ================================================================== *)
(** * The scenarios in an environment that refuses *)
(* ================================================================== *)

(** The run of the end-to-end scenario where the marker cannot be written
    and one staged archive cannot be removed: the component is installed,
    the run returns, no marker is written and the staging directory stays
    with the archive in it. *)
Example run_in_stubborn_environment :
  @start_in Demo.libs DemoEnv.stubborn Demo.cfg Demo.scenario
  = Ok tt (Dir [("opt", Dir [("sdk", Dir [
      ("ohos-sdk", Dir [("linux", Dir [("random-extra.zip", File "pack:empty")])]);
      ("12", Dir [("native", Dir [("oh-uni-package.json", File "apiVersion=12");
                                  ("libace.so", File "ELF")])])])])]).
Proof. reflexivity. Qed.

(** A wanted archive whose name the terminal does not take: the first
    line of its iteration raises and the run aborts before anything is
    extracted, where the same bundle is installed when the line is
    printed. *)
Example refused_line_aborts_the_run :
  @start_in Demo.libs DemoEnv.stubborn Demo.cfg DemoEnv.accented
  = Raise PrintError DemoEnv.accented
  /\ FS.lookup ["opt"; "sdk"; "12"; "native"; "libace.so"]
       (final_fs (@start_in Demo.libs willing Demo.cfg DemoEnv.accented))
     = Some (File "ELF").
Proof. split; reflexivity. Qed.

(** A valid metadata file that cannot be read gives the version
    [unknown]. *)
Example unreadable_metadata :
  @version_key Demo.libs DemoEnv.stubborn ["comp"] DemoEnv.guarded = "unknown"
  /\ @version_key Demo.libs willing ["comp"] DemoEnv.guarded = "12".
Proof. split; reflexivity. Qed.
